(** * l7na: antenna drive control

    A shallow embedding of the parts of the l7na sources that are present:

    - [src/l7na/types.h]   : the data model (module [Types]);
    - [src/l7na/drives.h]  : the [Drives::Control] interface with its own,
                             older status types (module [DrivesApi]);
    - [src/utils/example.cpp] : the interactive front end (module [Example]).

    Integers of a fixed width are [Z] with their range written out, [double]
    fields are exact rationals ([Q]), enumerations are inductive types that
    come with their underlying [int32_t]/[uint16_t] value. *)

From Stdlib Require Import ZArith QArith.
From Stdlib Require Import List String Ascii Bool Lia.
Import ListNotations.
Open Scope Z_scope.

(** ** Fixed-width integers *)

Definition uint64_max : Z := 2 ^ 64 - 1.
Definition uint32_max : Z := 2 ^ 32 - 1.
Definition int32_min : Z := - 2 ^ 31.
Definition int32_max : Z := 2 ^ 31 - 1.

Definition is_uint64 (x : Z) : Prop := 0 <= x <= uint64_max.
Definition is_uint32 (x : Z) : Prop := 0 <= x <= uint32_max.
Definition is_int32 (x : Z) : Prop := int32_min <= x <= int32_max.

Definition is_int32b (x : Z) : bool := (int32_min <=? x) && (x <=? int32_max).

(** ** Enumerator numbering

    A C++ enumerator without an initializer gets the value of its
    predecessor plus one, the first one gets 0. *)

Fixpoint number_from (next : Z) (decl : list (string * option Z))
  : list (string * Z) :=
  match decl with
  | [] => []
  | (name, Some v) :: rest => (name, v) :: number_from (v + 1) rest
  | (name, None) :: rest => (name, next) :: number_from (next + 1) rest
  end.

Definition enum_values (decl : list (string * option Z)) : list (string * Z) :=
  number_from 0 decl.

(** ** types.h *)

Module Types.

(** [enum Axis : int32_t].  [AXIS_MIN] and [AZIMUTH_AXIS] name the same
    value, so the type has four distinct values. *)
Definition Axis_decl : list (string * option Z) :=
  [ ("AXIS_NONE", Some (-1));
    ("AXIS_MIN", Some 0);
    ("AZIMUTH_AXIS", Some 0);
    ("ELEVATION_AXIS", Some 1);
    ("AXIS_COUNT", None) ]%string.

Inductive Axis : Type :=
| AXIS_NONE
| AZIMUTH_AXIS
| ELEVATION_AXIS
| AXIS_COUNT.

Definition AXIS_MIN : Axis := AZIMUTH_AXIS.

Definition Axis_to_int32 (a : Axis) : Z :=
  match a with
  | AXIS_NONE => -1
  | AZIMUTH_AXIS => 0
  | ELEVATION_AXIS => 1
  | AXIS_COUNT => 2
  end.

Definition Axis_of_int32 (z : Z) : option Axis :=
  if z =? -1 then Some AXIS_NONE
  else if z =? 0 then Some AZIMUTH_AXIS
  else if z =? 1 then Some ELEVATION_AXIS
  else if z =? 2 then Some AXIS_COUNT
  else None.

(** [enum AxisState : int32_t], the CiA402 states. *)
Definition AxisState_decl : list (string * option Z) :=
  [ ("AXIS_DISABLED", Some 0);
    ("AXIS_INIT", None);
    ("AXIS_IDLE", None);
    ("AXIS_ENABLED", None);
    ("AXIS_STOP", None);
    ("AXIS_WARNING", None);
    ("AXIS_ERROR", None) ]%string.

Inductive AxisState : Type :=
| AXIS_DISABLED
| AXIS_INIT
| AXIS_IDLE
| AXIS_ENABLED
| AXIS_STOP
| AXIS_WARNING
| AXIS_ERROR.

Definition AxisState_to_int32 (s : AxisState) : Z :=
  match s with
  | AXIS_DISABLED => 0
  | AXIS_INIT => 1
  | AXIS_IDLE => 2
  | AXIS_ENABLED => 3
  | AXIS_STOP => 4
  | AXIS_WARNING => 5
  | AXIS_ERROR => 6
  end.


Definition AxisState_all : list AxisState :=
  [ AXIS_DISABLED; AXIS_INIT; AXIS_IDLE; AXIS_ENABLED;
    AXIS_STOP; AXIS_WARNING; AXIS_ERROR ].

(** [enum ParamsMode : int16_t] *)
Inductive ParamsMode : Type :=
| PARAMS_MODE_AUTOMATIC
| PARAMS_MODE_MANUAL.

(** [using MoveMode = uint16_t] *)
Definition MoveMode : Type := Z.

(** [enum OperationMode : uint16_t] *)
Definition OperationMode_decl : list (string * option Z) :=
  [ ("OP_MODE_NOT_SET", Some 0);
    ("OP_MODE_POINT", Some 1);
    ("OP_MODE_SCAN", Some 3) ]%string.

Inductive OperationMode : Type :=
| OP_MODE_NOT_SET
| OP_MODE_POINT
| OP_MODE_SCAN.

Definition OperationMode_to_uint16 (m : OperationMode) : Z :=
  match m with
  | OP_MODE_NOT_SET => 0
  | OP_MODE_POINT => 1
  | OP_MODE_SCAN => 3
  end.

(** [struct AxisStatus].  Its constructor is declared here and defined
    elsewhere. *)
Record AxisStatus : Type := mkAxisStatus {
  tgt_pos_deg : Q;
  cur_pos_deg : Q;
  dmd_pos_deg : Q;
  tgt_vel_deg : Q;
  cur_vel_deg : Q;
  dmd_vel_deg : Q;
  cur_pos_abs : Z;
  cur_pos : Z;
  dmd_pos : Z;
  tgt_pos : Z;
  cur_vel : Z;
  dmd_vel : Z;
  tgt_vel : Z;
  cur_torq : Z;
  state : AxisState;
  error_code : Z;
  cur_temperature0 : Z;
  cur_temperature1 : Z;
  cur_temperature2 : Z;
  ctrlword : Z;
  statusword : Z;
  mode : OperationMode;
  move_mode : MoveMode;
  params_mode : ParamsMode
}.

(** [enum SystemState : int32_t] *)
Definition SystemState_decl : list (string * option Z) :=
  [ ("SYSTEM_OFF", Some (-1));
    ("SYSTEM_INIT", None);
    ("SYSTEM_READY", None);
    ("SYSTEM_PROCESSING", None);
    ("SYSTEM_WARNING", None);
    ("SYSTEM_ERROR", None);
    ("SYSTEM_FATAL_ERROR", None) ]%string.

Inductive SystemState : Type :=
| SYSTEM_OFF
| SYSTEM_INIT
| SYSTEM_READY
| SYSTEM_PROCESSING
| SYSTEM_WARNING
| SYSTEM_ERROR
| SYSTEM_FATAL_ERROR.

Definition SystemState_to_int32 (s : SystemState) : Z :=
  match s with
  | SYSTEM_OFF => -1
  | SYSTEM_INIT => 0
  | SYSTEM_READY => 1
  | SYSTEM_PROCESSING => 2
  | SYSTEM_WARNING => 3
  | SYSTEM_ERROR => 4
  | SYSTEM_FATAL_ERROR => 5
  end.

Definition SystemState_all : list SystemState :=
  [ SYSTEM_OFF; SYSTEM_INIT; SYSTEM_READY; SYSTEM_PROCESSING;
    SYSTEM_WARNING; SYSTEM_ERROR; SYSTEM_FATAL_ERROR ].

(** [struct SystemStatus]: [axes] is an array of [AXIS_COUNT] elements,
    kept as its two cells in index order. *)
Record SystemStatus : Type := mkSystemStatus {
  axes_0 : AxisStatus;
  axes_1 : AxisStatus;
  sys_state : SystemState;
  reftime : Z;
  apptime : Z;
  dcsync : Z
}.

(** [status.axes[i]]; an index outside the array is undefined. *)
Definition axes (s : SystemStatus) (i : Z) : option AxisStatus :=
  if i =? 0 then Some (axes_0 s)
  else if i =? 1 then Some (axes_1 s)
  else None.

(** [struct AxisInfo] with its inline constructor. *)
Record AxisInfo : Type := mkAxisInfo {
  encoder_pulses_per_rev : Z;
  dev_name : string;
  hw_version : string;
  sw_version : string
}.

Definition AxisInfo_ctor : AxisInfo :=
  {| encoder_pulses_per_rev := 0;
     dev_name := EmptyString;
     hw_version := EmptyString;
     sw_version := EmptyString |}.

(** [struct SystemInfo]: [axes[AXIS_COUNT]], each default constructed. *)
Record SystemInfo : Type := mkSystemInfo {
  info_axes_0 : AxisInfo;
  info_axes_1 : AxisInfo
}.

Definition SystemInfo_ctor : SystemInfo :=
  {| info_axes_0 := AxisInfo_ctor; info_axes_1 := AxisInfo_ctor |}.

(** [struct CycleTimeInfo] with its inline constructor;
    [std::numeric_limits<uint64_t>::max()] is [uint64_max]. *)
Record CycleTimeInfo : Type := mkCycleTimeInfo {
  period_ns : Z;
  exec_ns : Z;
  latency_ns : Z;
  latency_min_ns : Z;
  latency_max_ns : Z;
  period_min_ns : Z;
  period_max_ns : Z;
  exec_min_ns : Z;
  exec_max_ns : Z
}.

Definition CycleTimeInfo_ctor : CycleTimeInfo :=
  {| period_ns := 0;
     exec_ns := 0;
     latency_ns := 0;
     latency_min_ns := uint64_max;
     latency_max_ns := 0;
     period_min_ns := uint64_max;
     period_max_ns := 0;
     exec_min_ns := uint64_max;
     exec_max_ns := 0 |}.

(** The nine fields, grouped as the struct names them:
    (quantity, current, minimum, maximum). *)
Definition CycleTimeInfo_rows (c : CycleTimeInfo)
  : list (string * Z * Z * Z) :=
  [ ("period", period_ns c, period_min_ns c, period_max_ns c);
    ("exec", exec_ns c, exec_min_ns c, exec_max_ns c);
    ("latency", latency_ns c, latency_min_ns c, latency_max_ns c) ]%string.

End Types.

(** ** drives.h

    The header declares [Drives::Control] together with status types of its
    own, which differ from those of [types.h]. *)

Module DrivesApi.

(** [enum class AxisState : int32_t] *)
Inductive AxisState : Type :=
| AXIS_OFF
| AXIS_INIT
| AXIS_IDLE
| AXIS_SCAN
| AXIS_POINT
| AXIS_ERROR.

Definition AxisState_decl : list (string * option Z) :=
  [ ("AXIS_OFF", Some (-1));
    ("AXIS_INIT", None);
    ("AXIS_IDLE", None);
    ("AXIS_SCAN", None);
    ("AXIS_POINT", None);
    ("AXIS_ERROR", None) ]%string.

Definition AxisState_all : list AxisState :=
  [ AXIS_OFF; AXIS_INIT; AXIS_IDLE; AXIS_SCAN; AXIS_POINT; AXIS_ERROR ].

Definition AxisState_to_int32 (s : AxisState) : Z :=
  match s with
  | AXIS_OFF => -1
  | AXIS_INIT => 0
  | AXIS_IDLE => 1
  | AXIS_SCAN => 2
  | AXIS_POINT => 3
  | AXIS_ERROR => 4
  end.

Record AxisStatus : Type := mkAxisStatus {
  target_position : Z;
  cur_position : Z;
  demand_position : Z;
  target_velocity : Z;
  cur_velocity : Z;
  demand_velocity : Z;
  cur_torque : Z;
  state : AxisState;
  error_code : Z;
  statusword : Z
}.

(** [AxisStatus() noexcept].  The member initializer list leaves
    [statusword] out: its value is whatever the storage held, which the
    constructor takes here as an argument. *)
Definition AxisStatus_ctor (indeterminate_statusword : Z) : AxisStatus :=
  {| target_position := 0;
     cur_position := 0;
     demand_position := 0;
     target_velocity := 0;
     cur_velocity := 0;
     demand_velocity := 0;
     cur_torque := 0;
     state := AXIS_OFF;
     error_code := 0;
     statusword := indeterminate_statusword |}.

(** [enum class SystemState : int32_t] *)
Inductive SystemState : Type :=
| SYSTEM_OFF
| SYSTEM_OK
| SYSTEM_INIT
| SYSTEM_ERROR.

Definition SystemState_to_int32 (s : SystemState) : Z :=
  match s with
  | SYSTEM_OFF => -1
  | SYSTEM_OK => 0
  | SYSTEM_INIT => 1
  | SYSTEM_ERROR => 2
  end.

Record SystemStatus : Type := mkSystemStatus {
  azimuth : AxisStatus;
  elevation : AxisStatus;
  sys_state : SystemState;
  error_str : string
}.

(** [SystemStatus() noexcept : azimuth(), elevation(),
    state(SystemState::SYSTEM_OFF), error_str()] *)
Definition SystemStatus_ctor (indeterminate_az indeterminate_el : Z)
  : SystemStatus :=
  {| azimuth := AxisStatus_ctor indeterminate_az;
     elevation := AxisStatus_ctor indeterminate_el;
     sys_state := SYSTEM_OFF;
     error_str := EmptyString |}.

Record AxisInfo : Type := mkAxisInfo {
  encoder_type : Z;
  cur_temperature : Z;
  dev_name : string;
  hw_version : string;
  sw_version : string
}.

Definition AxisInfo_ctor : AxisInfo :=
  {| encoder_type := 4;
     cur_temperature := 0;
     dev_name := EmptyString;
     hw_version := EmptyString;
     sw_version := EmptyString |}.

Record SystemInfo : Type := mkSystemInfo {
  info_azimuth : AxisInfo;
  info_elevation : AxisInfo
}.

Definition SystemInfo_ctor : SystemInfo :=
  {| info_azimuth := AxisInfo_ctor; info_elevation := AxisInfo_ctor |}.

(** *** The declarations of [class Control]

    The class has no inline bodies; what the header fixes is its
    constructor and its four public member functions with their parameter
    lists (the destructor takes none). *)

Inductive CxxType : Type :=
| T_void
| T_bool
| T_int32
| T_Axis
| T_cstring
| T_atomic_SystemStatus
| T_atomic_SystemInfo.

Record Method : Type := mkMethod {
  m_name : string;
  m_params : list (CxxType * string);
  m_result : CxxType
}.

Definition Control_methods : list Method :=
  [ {| m_name := "Control";
       m_params := [(T_cstring, "cfg_file_path")];
       m_result := T_void |};
    {| m_name := "SetModeRun";
       m_params := [ (T_int32, "azimuth_angle");
                     (T_int32, "azimuth_velocity");
                     (T_int32, "elevation_angle");
                     (T_int32, "elevation_velocity") ];
       m_result := T_void |};
    {| m_name := "SetModeIdle";
       m_params := [ (T_bool, "azimuth_flag"); (T_bool, "elevation_flag") ];
       m_result := T_void |};
    {| m_name := "GetStatus";
       m_params := [];
       m_result := T_atomic_SystemStatus |};
    {| m_name := "GetSystemInfo";
       m_params := [];
       m_result := T_atomic_SystemInfo |} ]%string.

Definition find_method (name : string) : option Method :=
  find (fun m => String.eqb (m_name m) name) Control_methods.

End DrivesApi.

(** ** example.cpp *)

Module Example.
Import Types.

(** [struct Command] *)
Record Command : Type := mkCommand {
  axis : Axis;
  pos : Z;
  vel : Z;
  idle : bool
}.

Definition Command_ctor : Command :=
  {| axis := AZIMUTH_AXIS; pos := 0; vel := 0; idle := false |}.

Definition clear (c : Command) : Command :=
  {| axis := AZIMUTH_AXIS; pos := 0; vel := 0; idle := false |}.

Definition set_axis (a : Axis) (c : Command) : Command :=
  {| axis := a; pos := pos c; vel := vel c; idle := idle c |}.
Definition set_pos (p : Z) (c : Command) : Command :=
  {| axis := axis c; pos := p; vel := vel c; idle := idle c |}.
Definition set_vel (v : Z) (c : Command) : Command :=
  {| axis := axis c; pos := pos c; vel := v; idle := idle c |}.
Definition set_idle (b : bool) (c : Command) : Command :=
  {| axis := axis c; pos := pos c; vel := vel c; idle := b |}.

(** *** The tokenizer: [boost::char_separator<char> sep(" ")] splits at
    blanks and drops empty tokens. *)

Definition flush (cur : list ascii) : list string :=
  match cur with
  | [] => []
  | _ => [string_of_list_ascii (rev cur)]
  end.

Fixpoint tokens_from (s : string) (cur : list ascii) : list string :=
  match s with
  | EmptyString => flush cur
  | String c rest =>
      if Ascii.eqb c " " then flush cur ++ tokens_from rest []
      else tokens_from rest (c :: cur)
  end.

Definition tokenize (s : string) : list string := tokens_from s [].

(** *** [std::atoi]: blanks, an optional sign, then decimal digits up to
    the first other character.  A value outside [int] is undefined
    ([None]). *)

Definition is_space (c : ascii) : bool :=
  let n := N_of_ascii c in
  (N.eqb n 32 || (N.leb 9 n && N.leb n 13))%bool.

Definition digit_of (c : ascii) : option Z :=
  let n := Z.of_N (N_of_ascii c) in
  if (48 <=? n) && (n <=? 57) then Some (n - 48) else None.

Fixpoint skip_spaces (s : string) : string :=
  match s with
  | String c rest => if is_space c then skip_spaces rest else s
  | EmptyString => EmptyString
  end.

Fixpoint digits_value (acc : Z) (s : string) : Z :=
  match s with
  | String c rest =>
      match digit_of c with
      | Some d => digits_value (10 * acc + d) rest
      | None => acc
      end
  | EmptyString => acc
  end.

Definition atoi (s : string) : option Z :=
  let v :=
    match skip_spaces s with
    | String "-" rest => - digits_value 0 rest
    | String "+" rest => digits_value 0 rest
    | t => digits_value 0 t
    end in
  if is_int32b v then Some v else None.

(** *** [parse_args]

    The result is [None] where the function has undefined behaviour
    ([cmd_vec[0]] on an empty vector, [atoi] out of range), otherwise the
    returned flag with the updated [result].  The branches for "a" and
    "e" differ in the axis only. *)

Definition parse_axis_args (a : Axis) (cmd_vec : list string)
           (result : Command) : option (bool * Command) :=
  let result := set_axis a result in
  match cmd_vec with
  | _ :: c1 :: rest =>
      if String.eqb c1 "v" then
        match rest with
        | c2 :: _ =>
            match atoi c2 with
            | Some v => Some (true, set_vel v result)
            | None => None
            end
        | [] => Some (false, result)
        end
      else if String.eqb c1 "p" then
        match rest with
        | c2 :: _ =>
            match atoi c2 with
            | Some p => Some (true, set_pos p result)
            | None => None
            end
        | [] => Some (false, result)
        end
      else if String.eqb c1 "i" then Some (true, set_idle true result)
      else Some (true, result)
  | _ => Some (false, result)
  end.

Definition parse_args (cmd_str : string) (result : Command)
  : option (bool * Command) :=
  let cmd_vec := tokenize cmd_str in
  match cmd_vec with
  | [] => None
  | c0 :: _ =>
      if String.eqb c0 "a" then parse_axis_args AZIMUTH_AXIS cmd_vec result
      else if String.eqb c0 "e" then
        parse_axis_args ELEVATION_AXIS cmd_vec result
      else Some (false, result)
  end.

(** *** The axis loop
    [for (int32_t axis = AXIS_MIN; axis < AXIS_COUNT; ++axis)] of
    [print_status], [print_status_cerr] and [print_info]: the values
    [axis] takes, in order. *)

Fixpoint axis_loop_from (fuel : nat) (i : Z) : list Z :=
  match fuel with
  | O => []
  | S fuel' =>
      if i <? Axis_to_int32 AXIS_COUNT
      then i :: axis_loop_from fuel' (i + 1)
      else []
  end.

Definition axis_loop : list Z :=
  axis_loop_from
    (S (Z.to_nat (Axis_to_int32 AXIS_COUNT - Axis_to_int32 AXIS_MIN)))
    (Axis_to_int32 AXIS_MIN).

(** What [print_status] writes first for each axis: the index and the
    state of [status.axes[axis]] ([None] if a cell were out of range). *)
Definition print_status_rows (status : SystemStatus)
  : list (Z * option AxisState) :=
  map (fun i => (i, option_map state (axes status i))) axis_loop.

(** *** The command loop of [main]

    The calls the loop makes on [control], with the arguments as
    written at the call site. *)

Inductive ApiCall : Type :=
| SetModeIdle (a : Axis)
| SetModeRun (a : Axis) (p v : Z).

Inductive Action : Type :=
| Quit
| PrintHelp
| PrintStatus
| PrintInfo
| Skip
| Call (c : ApiCall).

Definition dispatch (cmd : Command) : ApiCall :=
  if idle cmd then SetModeIdle (axis cmd)
  else SetModeRun (axis cmd) (pos cmd) (vel cmd).

(** One turn of the [while (true)] loop on the line read. *)
Definition main_step (cmd_str : string) : option Action :=
  if String.eqb cmd_str "q" then Some Quit
  else if String.eqb cmd_str "h" || String.eqb cmd_str "help"
  then Some PrintHelp
  else if String.eqb cmd_str "s" then Some PrintStatus
  else if String.eqb cmd_str "i" then Some PrintInfo
  else if String.eqb cmd_str "" then Some Skip
  else
    match parse_args cmd_str Command_ctor with
    | None => None
    | Some (false, _) => Some Skip
    | Some (true, cmd) => Some (Call (dispatch cmd))
    end.

(** The axes a call addresses. *)
Definition addressed (c : ApiCall) : list Axis :=
  match c with
  | SetModeIdle a => [a]
  | SetModeRun a _ _ => [a]
  end.

(** *** Output streams

    What is written to a [std::ostream], item by item; a number is kept
    together with the base the stream had when it was written.  The
    stream remembers its base ([std::hex], [std::dec]) between items. *)

Inductive Base : Type :=
| Dec
| Hex.

Inductive Out : Type :=
| Text (s : string)
| Num (b : Base) (z : Z)
| Endl
| LocalTime.

Record ostream : Type := mkOstream {
  base : Base;
  written : list Out
}.

(** One operand of a chain of [<<]. *)
Inductive Item : Type :=
| IText (s : string)
| INum (z : Z)
| IBase (b : Base)
| IEndl
| ITime.

Definition emit (os : ostream) (i : Item) : ostream :=
  match i with
  | IText s => {| base := base os; written := written os ++ [Text s] |}
  | INum z => {| base := base os; written := written os ++ [Num (base os) z] |}
  | IBase b => {| base := b; written := written os |}
  | IEndl => {| base := base os; written := written os ++ [Endl] |}
  | ITime => {| base := base os; written := written os ++ [LocalTime] |}
  end.

Definition emit_all (os : ostream) (items : list Item) : ostream :=
  fold_left emit items os.

Definition tab : string := String (ascii_of_nat 9) EmptyString.

(** The header of [print_status], as its five statements write it. *)
Definition status_header : list string :=
  [ "1.DateTime | 2.AxisA";
    "| 3.StateA | 4.StatusWordA | 5.ControlWordA | 6.ModeA | 7.CurPosA | 8.TgtPosA | 9.DmdPosA";
    "| 10.CurVelA | 11.TgtVelA | 12.DmdVelA | 13.CurTrqA | 14.CurTempA";
    "| 15.AxisE";
    "| 16.StateE |17.StatusWordE | 18.ControlWordE | 19.ModeE | 20.CurPosE | 21.TgtPosE | 22.DmdPosE";
    "| 23.CurVelE | 24.TgtVelE | 25.DmdVelE | 26.CurTrqE | 27.CurTempE" ]%string.

Section Printing.

(** [print_status] and [print_status_cerr] read a member
    [cur_temperature] of the axis status, which [types.h] does not
    declare (it has [cur_temperature0] to [cur_temperature2]); the member
    is a parameter here. *)
Variable cur_temperature : AxisStatus -> Z.

(** The operands of the [<<] chain in the loop body of [print_status]. *)
Definition print_status_axis (i : Z) (a : AxisStatus) : list Item :=
  [ INum i; IText tab; INum (AxisState_to_int32 (state a)); IText tab;
    IBase Hex; IText "0x"; INum (statusword a); IText tab;
    INum (ctrlword a);
    IBase Dec; IText tab; INum (OperationMode_to_uint16 (mode a));
    IText tab; INum (cur_pos a); IText tab; INum (tgt_pos a);
    IText tab; INum (dmd_pos a);
    IText tab; INum (cur_vel a); IText tab; INum (tgt_vel a);
    IText tab; INum (dmd_vel a);
    IText tab; INum (cur_torq a); IText tab; INum (cur_temperature a) ].


(** The axis loop with a body that writes [row axis status.axes[axis]];
    [None] if the loop indexed outside the array. *)
Fixpoint for_axes (row : Z -> AxisStatus -> list Item)
         (status : SystemStatus) (indices : list Z) (os : ostream)
  : option ostream :=
  match indices with
  | [] => Some os
  | i :: rest =>
      match axes status i with
      | Some a => for_axes row status rest (emit_all os (row i a))
      | None => None
      end
  end.

(** [print_status]: [header_printed] is the function's static flag,
    threaded through the calls together with the stream. *)
Definition print_status (status : SystemStatus)
           (header_printed : bool) (os : ostream)
  : option (bool * ostream) :=
  let os :=
    if header_printed then os
    else emit_all os (map IText status_header ++ [IEndl]) in
  let os := emit os ITime in
  match for_axes print_status_axis status axis_loop os with
  | Some os' => Some (true, os')
  | None => None
  end.


(** *** [StatReader]

    [main] builds [statreader] and starts the thread on
    [boost::bind(&StatReader::CycleRead, statreader)]: the function object
    holds a copy of [statreader], and [CycleRead] runs on that copy.  The
    world below keeps both objects. *)

Record StatReader : Type := mkStatReader {
  stop_ : bool;
  outfilepath_ : string;
  lograte_us_ : Z
}.

Definition StatReader_ctor (outfilepath : string) (lograte_us : Z)
  : StatReader :=
  {| stop_ := false; outfilepath_ := outfilepath;
     lograte_us_ := lograte_us |}.

Definition set_stop (b : bool) (r : StatReader) : StatReader :=
  {| stop_ := b; outfilepath_ := outfilepath_ r;
     lograte_us_ := lograte_us_ r |}.

(** Where the thread is in [CycleRead]: before the two early returns,
    at the test of the loop, or returned. *)
Inductive Pc : Type :=
| AtEntry
| AtLoop
| Returned.

Record World : Type := mkWorld {
  statreader : StatReader;       (* the object of [main] *)
  bound : StatReader;            (* the copy the thread runs on *)
  pc : Pc;
  loads : nat;                   (* loads of the status cell so far *)
  header_printed : bool;         (* the static flag of [print_status] *)
  ofs : ostream;                 (* the log file *)
  slept_us : list Z              (* the sleeps, latest first *)
}.

Definition start (outfilepath : string) (lograte_us : Z) : World :=
  let r := StatReader_ctor outfilepath lograte_us in
  {| statreader := r; bound := r; pc := AtEntry; loads := 0%nat;
     header_printed := false; ofs := {| base := Dec; written := [] |};
     slept_us := [] |}.

(** What happens next: the thread advances by one test, or [main]
    executes [statreader.stop_ = true]. *)
Inductive Event : Type :=
| ThreadStep
| MainSetsStop.

(** [cell k] is the status the [k]-th load of the cell returns and
    [file_good] the outcome of opening the log file.  A step is [None]
    if [print_status] indexed outside the array. *)
Definition step (cell : nat -> SystemStatus) (file_good : bool)
           (w : World) (e : Event) : option World :=
  match e with
  | MainSetsStop =>
      Some {| statreader := set_stop true (statreader w);
              bound := bound w; pc := pc w; loads := loads w;
              header_printed := header_printed w; ofs := ofs w;
              slept_us := slept_us w |}
  | ThreadStep =>
      match pc w with
      | AtEntry =>
          let next :=
            if String.eqb (outfilepath_ (bound w)) "" then Returned
            else if file_good then AtLoop else Returned in
          Some {| statreader := statreader w; bound := bound w;
                  pc := next; loads := loads w;
                  header_printed := header_printed w; ofs := ofs w;
                  slept_us := slept_us w |}
      | AtLoop =>
          if stop_ (bound w) then
            Some {| statreader := statreader w; bound := bound w;
                    pc := Returned; loads := loads w;
                    header_printed := header_printed w; ofs := ofs w;
                    slept_us := slept_us w |}
          else
            match print_status (cell (loads w)) (header_printed w) (ofs w)
            with
            | Some (hp, os) =>
                Some {| statreader := statreader w; bound := bound w;
                        pc := AtLoop; loads := S (loads w);
                        header_printed := hp; ofs := os;
                        slept_us := lograte_us_ (bound w) :: slept_us w |}
            | None => None
            end
      | Returned => Some w
      end
  end.

Fixpoint run (cell : nat -> SystemStatus) (file_good : bool)
         (w : World) (events : list Event) : option World :=
  match events with
  | [] => Some w
  | e :: rest =>
      match step cell file_good w e with
      | Some w' => run cell file_good w' rest
      | None => None
      end
  end.

End Printing.

(** The numbers among the items written, with their bases. *)
Fixpoint numbers (out : list Out) : list (Base * Z) :=
  match out with
  | [] => []
  | Num b z :: rest => (b, z) :: numbers rest
  | _ :: rest => numbers rest
  end.

Definition is_endl (o : Out) : bool :=
  match o with
  | Endl => true
  | _ => false
  end.

Definition is_tab (o : Out) : bool :=
  match o with
  | Text s => String.eqb s tab
  | _ => false
  end.

(** The columns a header line announces: one more than its bars. *)
Fixpoint bars (s : string) : nat :=
  match s with
  | EmptyString => 0%nat
  | String c rest => if Ascii.eqb c "|" then S (bars rest) else bars rest
  end.

Definition header_columns : nat :=
  S (fold_right (fun part n => (bars part + n)%nat) 0%nat status_header).

(** A string without blanks. *)
Fixpoint blank_free (s : string) : bool :=
  match s with
  | EmptyString => true
  | String c rest => negb (Ascii.eqb c " ") && blank_free rest
  end.

(** A string of blanks only. *)
Fixpoint all_blank (s : string) : bool :=
  match s with
  | EmptyString => true
  | String c rest => Ascii.eqb c " " && all_blank rest
  end.

Definition is_token (t : string) : bool :=
  negb (String.eqb t "") && blank_free t.

Definition is_time (o : Out) : bool :=
  match o with
  | LocalTime => true
  | _ => false
  end.

Definition count (p : Out -> bool) (out : list Out) : nat :=
  List.length (filter p out).

Definition count_events (e : Event) (events : list Event) : nat :=
  List.length
    (filter (fun x => match x, e with
                      | ThreadStep, ThreadStep => true
                      | MainSetsStop, MainSetsStop => true
                      | _, _ => false
                      end) events).

(** What a chain of [<<] adds to a stream in base [b], and the base it
    leaves: [emit_all] in closed form. *)
Fixpoint render (b : Base) (items : list Item) : list Out :=
  match items with
  | [] => []
  | IText s :: rest => Text s :: render b rest
  | INum z :: rest => Num b z :: render b rest
  | IBase b' :: rest => render b' rest
  | IEndl :: rest => Endl :: render b rest
  | ITime :: rest => LocalTime :: render b rest
  end.

Fixpoint final_base (b : Base) (items : list Item) : Base :=
  match items with
  | [] => b
  | IBase b' :: rest => final_base b' rest
  | _ :: rest => final_base b rest
  end.

Definition header_out : list Out := map Text status_header ++ [Endl].

Definition sample_out (cur_temperature : AxisStatus -> Z) (b : Base)
           (status : SystemStatus) : list Out :=
  LocalTime
    :: render b (print_status_axis cur_temperature 0 (axes_0 status))
    ++ render Dec (print_status_axis cur_temperature 1 (axes_1 status)).

(** A string of decimal digits. *)
Fixpoint all_digits (s : string) : bool :=
  match s with
  | EmptyString => true
  | String c rest =>
      match digit_of c with
      | Some _ => all_digits rest
      | None => false
      end
  end.

Definition in_int32 (v : Z) : option Z :=
  if is_int32b v then Some v else None.

(** What the log holds after the samples loaded so far. *)
Definition log_shape (w : World) : Prop :=
  header_printed w = negb (Nat.eqb (loads w) 0) /\
  count is_endl (written (ofs w)) = Nat.min 1 (loads w) /\
  count is_time (written (ofs w)) = loads w /\
  List.length (numbers (written (ofs w))) = (26 * loads w)%nat /\
  count is_tab (written (ofs w)) = (24 * loads w)%nat /\
  slept_us w = repeat (lograte_us_ (bound w)) (loads w).

(** The samples written after a number of thread steps: the first step
    from the entry only opens the file. *)
Definition samples_after (p : Pc) (thread_steps : nat) : nat :=
  match p with
  | AtEntry => Nat.pred thread_steps
  | _ => thread_steps
  end.

End Example.

(** ** The core behind the interface

    The implementation of [Drives::Control] is not part of the sources at
    hand.  The definitions of this module follow the written design of the
    core where a property needs them; each says what it stands for. *)

Module Core.
Import Types.

(** *** Observed axis state *)




(** *** Command normalisation *)

(** What the mode controller holds for one axis. *)
Record AxisSetpoint : Type := mkAxisSetpoint {
  idle_requested : bool;
  op_mode : OperationMode;
  target_position : Z;
  target_velocity : Z
}.

(** Modelled from the spec: how the mode controller normalises a
    command for its axis (the controller is missing from the sources;
    the comment of [Control::SetModeRun] in drives.h states the same
    velocity test).  [default_profile_velocity] is configuration. *)
Definition normalise (default_profile_velocity : Z) (cur : AxisSetpoint)
           (cmd : Example.Command) : AxisSetpoint :=
  if Example.idle cmd then
    {| idle_requested := true;
       op_mode := OP_MODE_NOT_SET;
       target_position := target_position cur;
       target_velocity := target_velocity cur |}
  else if Example.vel cmd =? 0 then
    {| idle_requested := false;
       op_mode := OP_MODE_POINT;
       target_position := Example.pos cmd;
       target_velocity := Z.abs default_profile_velocity |}
  else
    {| idle_requested := false;
       op_mode := OP_MODE_SCAN;
       target_position := target_position cur;
       target_velocity := Example.vel cmd |}.

(** The direction of a scan is the sign of its target velocity. *)
Inductive Direction : Type :=
| Positive
| Negative
| Standstill.

Definition direction (v : Z) : Direction :=
  match v with
  | Zpos _ => Positive
  | Zneg _ => Negative
  | Z0 => Standstill
  end.

(** *** Encoder pulses and degrees *)

(** Modelled from the spec: [pulses_per_degree =
    encoder_pulses_per_rev / 360], as an exact rational. *)
Definition pulses_per_degree (encoder_pulses_per_rev : Z) : Q :=
  (inject_Z encoder_pulses_per_rev / inject_Z 360)%Q.

(** Division as the language has it: dividing by zero has no result. *)
Definition checked_div (x y : Q) : option Q :=
  if Qeq_bool y 0 then None else Some (x / y)%Q.

(** Modelled from the spec: the conversion of pulses to degrees
    (missing from the sources) divides by [pulses_per_degree]. *)
Definition pulses_to_deg (info : AxisInfo) (pulses : Z) : option Q :=
  checked_div (inject_Z pulses)
              (pulses_per_degree (encoder_pulses_per_rev info)).

End Core.

(** * Properties *)

(** ** Enumerations *)

Section EnumerationFacts.
Import Types.




Lemma AxisState_to_int32_inj (a b : AxisState) :
  AxisState_to_int32 a = AxisState_to_int32 b -> a = b.
Proof. destruct a, b; simpl; intros H; first [reflexivity | discriminate H]. Qed.

Lemma SystemState_all_complete (s : SystemState) : In s SystemState_all.
Proof. destruct s; simpl; tauto. Qed.

Lemma Axis_of_to_int32 (z : Z) (a : Axis) :
  Axis_of_int32 z = Some a <-> z = Axis_to_int32 a.
Proof.
  split.
  - unfold Axis_of_int32.
    repeat match goal with
           | |- context [?x =? ?y] => destruct (Z.eqb_spec x y)
           end;
      intros H; inversion H; subst; reflexivity.
  - intros ->. destruct a; reflexivity.
Qed.

Lemma Axis_in_range_iff (a : Axis) :
  Axis_to_int32 AXIS_MIN <= Axis_to_int32 a < Axis_to_int32 AXIS_COUNT <->
  a = AZIMUTH_AXIS \/ a = ELEVATION_AXIS.
Proof.
  destruct a; simpl; split; intros H;
    try lia; try (destruct H; discriminate); auto.
Qed.

End EnumerationFacts.

(** ** Statusword decoding *)

Section StatuswordDecoding.
Import Types Core.





End StatuswordDecoding.



(** C7: a freshly constructed CycleTimeInfo has latency_min_ns,
    period_min_ns and exec_min_ns equal to the largest unsigned 64-bit
    value, 2^64 - 1, which no unsigned 64-bit value exceeds; it carries a
    current, a minimum and a maximum value for each of period, execution
    time and latency, and all current and maximum fields start at 0. *)
Theorem CycleTimeInfo_ctor_fields :
  Types.latency_min_ns Types.CycleTimeInfo_ctor = uint64_max /\
  Types.period_min_ns Types.CycleTimeInfo_ctor = uint64_max /\
  Types.exec_min_ns Types.CycleTimeInfo_ctor = uint64_max /\
  uint64_max = 18446744073709551615 /\
  is_uint64 uint64_max /\
  (forall x : Z, is_uint64 x -> x <= uint64_max) /\
  Types.CycleTimeInfo_rows Types.CycleTimeInfo_ctor =
    [ ("period", 0, uint64_max, 0);
      ("exec", 0, uint64_max, 0);
      ("latency", 0, uint64_max, 0) ]%string.
Proof.
  repeat split; try reflexivity.
  - unfold uint64_max. lia.
  - intros x [_ Hx]. exact Hx.
Qed.

(** The members the constructors of drives.h initialise: the state of a
    default-constructed SystemStatus is SYSTEM_OFF and its error string
    empty; the state of a default-constructed AxisStatus is AXIS_OFF and
    its positions, velocities, torque and error code are 0, whatever its
    statusword holds. *)
Lemma default_status_off_and_zeroed :
  forall sw_az sw_el sw : Z,
    DrivesApi.sys_state (DrivesApi.SystemStatus_ctor sw_az sw_el)
      = DrivesApi.SYSTEM_OFF /\
    DrivesApi.error_str (DrivesApi.SystemStatus_ctor sw_az sw_el)
      = EmptyString /\
    DrivesApi.azimuth (DrivesApi.SystemStatus_ctor sw_az sw_el)
      = DrivesApi.AxisStatus_ctor sw_az /\
    DrivesApi.elevation (DrivesApi.SystemStatus_ctor sw_az sw_el)
      = DrivesApi.AxisStatus_ctor sw_el /\
    DrivesApi.state (DrivesApi.AxisStatus_ctor sw) = DrivesApi.AXIS_OFF /\
    DrivesApi.AxisState_to_int32
      (DrivesApi.state (DrivesApi.AxisStatus_ctor sw)) = -1 /\
    DrivesApi.target_position (DrivesApi.AxisStatus_ctor sw) = 0 /\
    DrivesApi.cur_position (DrivesApi.AxisStatus_ctor sw) = 0 /\
    DrivesApi.demand_position (DrivesApi.AxisStatus_ctor sw) = 0 /\
    DrivesApi.target_velocity (DrivesApi.AxisStatus_ctor sw) = 0 /\
    DrivesApi.cur_velocity (DrivesApi.AxisStatus_ctor sw) = 0 /\
    DrivesApi.demand_velocity (DrivesApi.AxisStatus_ctor sw) = 0 /\
    DrivesApi.cur_torque (DrivesApi.AxisStatus_ctor sw) = 0 /\
    DrivesApi.error_code (DrivesApi.AxisStatus_ctor sw) = 0.
Proof.
  intros sw_az sw_el sw. repeat split.
Qed.

(** C9: the constructor of AxisStatus in drives.h names every member in
    its initializer list but statusword, so a default-constructed status
    does not read fully zeroed: its statusword is whatever the storage
    held, for instance 43947 and 52685 for the two axes of a
    default-constructed SystemStatus, while the state is AXIS_OFF and the
    other members are 0. *)
Theorem default_statusword_not_initialised :
  (forall sw : Z,
      DrivesApi.statusword (DrivesApi.AxisStatus_ctor sw) = sw) /\
  DrivesApi.statusword
    (DrivesApi.azimuth (DrivesApi.SystemStatus_ctor 43947 52685)) = 43947 /\
  DrivesApi.statusword
    (DrivesApi.elevation (DrivesApi.SystemStatus_ctor 43947 52685)) = 52685 /\
  DrivesApi.statusword (DrivesApi.AxisStatus_ctor 43947) <> 0 /\
  DrivesApi.state (DrivesApi.AxisStatus_ctor 43947) = DrivesApi.AXIS_OFF /\
  DrivesApi.error_code (DrivesApi.AxisStatus_ctor 43947) = 0 /\
  DrivesApi.sys_state (DrivesApi.SystemStatus_ctor 43947 52685)
    = DrivesApi.SYSTEM_OFF.
Proof.
  split; [intros sw; reflexivity|].
  split; [reflexivity|]. split; [reflexivity|].
  split; [discriminate|].
  split; [reflexivity|]. split; reflexivity.
Qed.

(** ** The front end *)

Section FrontEnd.
Import Types Example.

Lemma parse_axis_args_axis (a : Axis) (cmd_vec : list string)
      (result cmd : Command) (ok : bool) :
  parse_axis_args a cmd_vec result = Some (ok, cmd) -> axis cmd = a.
Proof.
  unfold parse_axis_args.
  destruct cmd_vec as [|c0 [|c1 rest]];
    try (intros H; inversion H; reflexivity).
  destruct (String.eqb c1 "v").
  { destruct rest as [|c2 rest'].
    - intros H; inversion H; reflexivity.
    - destruct (atoi c2); intros H; inversion H; reflexivity. }
  destruct (String.eqb c1 "p").
  { destruct rest as [|c2 rest'].
    - intros H; inversion H; reflexivity.
    - destruct (atoi c2); intros H; inversion H; reflexivity. }
  destruct (String.eqb c1 "i"); intros H; inversion H; reflexivity.
Qed.

Lemma parse_args_accepts_axis (cmd_str : string) (result cmd : Command) :
  parse_args cmd_str result = Some (true, cmd) ->
  axis cmd = AZIMUTH_AXIS \/ axis cmd = ELEVATION_AXIS.
Proof.
  unfold parse_args.
  destruct (tokenize cmd_str) as [|c0 rest]; [discriminate|].
  destruct (String.eqb c0 "a").
  { intros H. left. exact (parse_axis_args_axis _ _ _ _ _ H). }
  destruct (String.eqb c0 "e").
  { intros H. right. exact (parse_axis_args_axis _ _ _ _ _ H). }
  discriminate.
Qed.

Lemma dispatch_addresses_command_axis (cmd : Command) :
  addressed (dispatch cmd) = [axis cmd].
Proof. unfold dispatch. destruct (idle cmd); reflexivity. Qed.

(** Every call the command loop makes names one axis, azimuth or
    elevation. *)
Lemma main_step_call_single_axis (cmd_str : string) (c : ApiCall) :
  main_step cmd_str = Some (Call c) ->
  addressed c = [AZIMUTH_AXIS] \/ addressed c = [ELEVATION_AXIS].
Proof.
  unfold main_step.
  destruct (String.eqb cmd_str "q"); [discriminate|].
  destruct (String.eqb cmd_str "h" || String.eqb cmd_str "help");
    [discriminate|].
  destruct (String.eqb cmd_str "s"); [discriminate|].
  destruct (String.eqb cmd_str "i"); [discriminate|].
  destruct (String.eqb cmd_str ""); [discriminate|].
  destruct (parse_args cmd_str Command_ctor) as [[[|] cmd]|] eqn:Hp;
    try discriminate.
  intros H. inversion H; subst c.
  rewrite dispatch_addresses_command_axis.
  destruct (parse_args_accepts_axis _ _ _ Hp) as [-> | ->]; auto.
Qed.

Lemma axis_loop_order :
  axis_loop = [Axis_to_int32 AZIMUTH_AXIS; Axis_to_int32 ELEVATION_AXIS].
Proof. reflexivity. Qed.

End FrontEnd.

(** C8, as stated, fails: the enumeration has members besides the two
    axes.  AXIS_NONE, of value -1, is neither AZIMUTH_AXIS nor
    ELEVATION_AXIS, and neither is AXIS_COUNT, of value 2. *)
Lemma Axis_has_more_than_two_members :
  In ("AXIS_NONE"%string, -1) (enum_values Types.Axis_decl) /\
  Types.Axis_to_int32 Types.AXIS_NONE = -1 /\
  Types.AXIS_NONE <> Types.AZIMUTH_AXIS /\
  Types.AXIS_NONE <> Types.ELEVATION_AXIS /\
  Types.AXIS_COUNT <> Types.AZIMUTH_AXIS /\
  Types.AXIS_COUNT <> Types.ELEVATION_AXIS /\
  ~ (forall a : Types.Axis,
        a = Types.AZIMUTH_AXIS \/ a = Types.ELEVATION_AXIS).
Proof.
  split; [simpl; auto|].
  split; [reflexivity|].
  repeat (split; [discriminate|]).
  intros H. destruct (H Types.AXIS_NONE); discriminate.
Qed.

(** C8, amended: the Axis enumeration declares AXIS_NONE = -1,
    AXIS_MIN = 0, AZIMUTH_AXIS = 0, ELEVATION_AXIS = 1 and AXIS_COUNT = 2;
    exactly two of its members, AZIMUTH_AXIS and ELEVATION_AXIS, lie in the
    axis range from AXIS_MIN up to but excluding AXIS_COUNT, and every
    iteration over that range visits AZIMUTH_AXIS first and then
    ELEVATION_AXIS, as the rows of print_status show. *)
Theorem axis_range_two_members_in_order :
  enum_values Types.Axis_decl =
    [ ("AXIS_NONE", -1); ("AXIS_MIN", 0); ("AZIMUTH_AXIS", 0);
      ("ELEVATION_AXIS", 1); ("AXIS_COUNT", 2) ]%string /\
  (forall a : Types.Axis,
      Types.Axis_to_int32 Types.AXIS_MIN <= Types.Axis_to_int32 a
        < Types.Axis_to_int32 Types.AXIS_COUNT <->
      a = Types.AZIMUTH_AXIS \/ a = Types.ELEVATION_AXIS) /\
  map Types.Axis_of_int32 Example.axis_loop =
    [Some Types.AZIMUTH_AXIS; Some Types.ELEVATION_AXIS] /\
  (forall status : Types.SystemStatus,
      Example.print_status_rows status =
        [ (Types.Axis_to_int32 Types.AZIMUTH_AXIS,
           Some (Types.state (Types.axes_0 status)));
          (Types.Axis_to_int32 Types.ELEVATION_AXIS,
           Some (Types.state (Types.axes_1 status))) ]).
Proof.
  split; [reflexivity|].
  split; [apply Axis_in_range_iff|].
  split; [reflexivity|].
  intros status. reflexivity.
Qed.

(** C3, as stated, fails on the declarations of drives.h: SetModeRun is
    declared with four int32_t parameters, the angle and the velocity of
    the azimuth and of the elevation axis, and SetModeIdle with two bool
    flags, one per axis; neither takes an axis, so neither has the
    parameters (axis, position, velocity) or (axis) of the claim. *)
Lemma declared_calls_take_both_axes :
  option_map DrivesApi.m_params (DrivesApi.find_method "SetModeRun") =
    Some [ (DrivesApi.T_int32, "azimuth_angle");
           (DrivesApi.T_int32, "azimuth_velocity");
           (DrivesApi.T_int32, "elevation_angle");
           (DrivesApi.T_int32, "elevation_velocity") ]%string /\
  option_map DrivesApi.m_params (DrivesApi.find_method "SetModeIdle") =
    Some [ (DrivesApi.T_bool, "azimuth_flag");
           (DrivesApi.T_bool, "elevation_flag") ]%string /\
  ~ (exists m : DrivesApi.Method,
        DrivesApi.find_method "SetModeRun" = Some m /\
        map fst (DrivesApi.m_params m) =
          [DrivesApi.T_Axis; DrivesApi.T_int32; DrivesApi.T_int32]) /\
  ~ (exists m : DrivesApi.Method,
        DrivesApi.find_method "SetModeIdle" = Some m /\
        map fst (DrivesApi.m_params m) = [DrivesApi.T_Axis]).
Proof.
  split; [reflexivity|]. split; [reflexivity|].
  split; intros (m & Hm & Hp); cbv in Hm; inversion Hm; subst m;
    discriminate Hp.
Qed.

(** C3, amended: the command surface declared in drives.h consists of
    SetModeRun(azimuth_angle, azimuth_velocity, elevation_angle,
    elevation_velocity), which takes an angle and a velocity for each of
    the two axes and no axis, SetModeIdle(azimuth_flag, elevation_flag)
    with one flag per axis, GetStatus() and GetSystemInfo(), besides the
    constructor; every movement or idle command the front end of
    example.cpp submits is a SetModeRun or SetModeIdle call that addresses
    a single axis, the azimuth or the elevation axis. *)
Theorem command_surface_declared_and_used :
  map DrivesApi.m_name DrivesApi.Control_methods =
    [ "Control"; "SetModeRun"; "SetModeIdle";
      "GetStatus"; "GetSystemInfo" ]%string /\
  option_map (fun m => map fst (DrivesApi.m_params m))
             (DrivesApi.find_method "SetModeRun") =
    Some [ DrivesApi.T_int32; DrivesApi.T_int32;
           DrivesApi.T_int32; DrivesApi.T_int32 ] /\
  option_map (fun m => map snd (DrivesApi.m_params m))
             (DrivesApi.find_method "SetModeRun") =
    Some [ "azimuth_angle"; "azimuth_velocity";
           "elevation_angle"; "elevation_velocity" ]%string /\
  option_map DrivesApi.m_params (DrivesApi.find_method "SetModeIdle") =
    Some [ (DrivesApi.T_bool, "azimuth_flag");
           (DrivesApi.T_bool, "elevation_flag") ]%string /\
  option_map DrivesApi.m_params (DrivesApi.find_method "GetStatus")
    = Some [] /\
  option_map DrivesApi.m_params (DrivesApi.find_method "GetSystemInfo")
    = Some [] /\
  (forall (cmd_str : string) (c : Example.ApiCall),
      Example.main_step cmd_str = Some (Example.Call c) ->
      Example.addressed c = [Types.AZIMUTH_AXIS] \/
      Example.addressed c = [Types.ELEVATION_AXIS]) /\
  Example.main_step "a p 524288" =
    Some (Example.Call (Example.SetModeRun Types.AZIMUTH_AXIS 524288 0)) /\
  Example.main_step "e i" =
    Some (Example.Call (Example.SetModeIdle Types.ELEVATION_AXIS)).
Proof.
  repeat (split; [reflexivity|]).
  split; [exact main_step_call_single_axis|].
  split; reflexivity.
Qed.

(** ** Command normalisation *)

Section ModeSelection.
Import Types Example Core.

Lemma direction_sign (v : Z) :
  (direction v = Positive <-> 0 < v) /\
  (direction v = Negative <-> v < 0) /\
  (direction v = Standstill <-> v = 0).
Proof.
  destruct v; simpl; repeat split; intros H;
    solve [reflexivity | discriminate | lia].
Qed.

Lemma normalise_point (dpv : Z) (cur : AxisSetpoint) (cmd : Command) :
  idle cmd = false -> vel cmd = 0 ->
  normalise dpv cur cmd =
    {| idle_requested := false;
       op_mode := OP_MODE_POINT;
       target_position := pos cmd;
       target_velocity := Z.abs dpv |}.
Proof.
  intros Hi Hv. unfold normalise. rewrite Hi, Hv. reflexivity.
Qed.

Lemma normalise_scan (dpv : Z) (cur : AxisSetpoint) (cmd : Command) :
  idle cmd = false -> vel cmd <> 0 ->
  normalise dpv cur cmd =
    {| idle_requested := false;
       op_mode := OP_MODE_SCAN;
       target_position := target_position cur;
       target_velocity := vel cmd |}.
Proof.
  intros Hi Hv. unfold normalise. rewrite Hi.
  destruct (Z.eqb_spec (vel cmd) 0) as [E|E]; [contradiction|reflexivity].
Qed.

End ModeSelection.

(** C4: for every command with idle = false: if its velocity is 0 the
    axis gets operation mode POINT (profile position, raw value 1) with
    target_position equal to the commanded position; if its velocity is not
    0 the axis gets operation mode SCAN (profile velocity, raw value 3)
    with target_velocity equal to the commanded velocity, whose sign is the
    direction, and the commanded position has no influence on the
    result. *)
Theorem run_command_selects_point_or_scan :
  forall (default_profile_velocity : Z) (cur : Core.AxisSetpoint)
         (cmd : Example.Command),
    Example.idle cmd = false ->
    (Example.vel cmd = 0 ->
       Core.op_mode (Core.normalise default_profile_velocity cur cmd)
         = Types.OP_MODE_POINT /\
       Types.OperationMode_to_uint16
         (Core.op_mode (Core.normalise default_profile_velocity cur cmd)) = 1 /\
       Core.target_position (Core.normalise default_profile_velocity cur cmd)
         = Example.pos cmd) /\
    (Example.vel cmd <> 0 ->
       Core.op_mode (Core.normalise default_profile_velocity cur cmd)
         = Types.OP_MODE_SCAN /\
       Types.OperationMode_to_uint16
         (Core.op_mode (Core.normalise default_profile_velocity cur cmd)) = 3 /\
       Core.target_velocity (Core.normalise default_profile_velocity cur cmd)
         = Example.vel cmd /\
       (0 < Example.vel cmd ->
          Core.direction
            (Core.target_velocity
               (Core.normalise default_profile_velocity cur cmd))
            = Core.Positive) /\
       (Example.vel cmd < 0 ->
          Core.direction
            (Core.target_velocity
               (Core.normalise default_profile_velocity cur cmd))
            = Core.Negative) /\
       (forall p : Z,
          Core.normalise default_profile_velocity cur (Example.set_pos p cmd)
            = Core.normalise default_profile_velocity cur cmd)).
Proof.
  intros dpv cur cmd Hi. split; intros Hv.
  - rewrite (normalise_point dpv cur cmd Hi Hv). repeat split.
  - rewrite (normalise_scan dpv cur cmd Hi Hv). cbn.
    split; [reflexivity|]. split; [reflexivity|]. split; [reflexivity|].
    split; [|split].
    + intros H. apply (proj1 (direction_sign _)). exact H.
    + intros H. apply (proj1 (proj2 (direction_sign _))). exact H.
    + intros p.
      apply (normalise_scan dpv cur (Example.set_pos p cmd));
        [exact Hi | exact Hv].
Qed.

(** The command lines "a p 524288" and "a v -100000" of the front end,
    normalised: a point move to 524288 and a scan at -100000. *)
Lemma run_command_selects_point_or_scan_witness :
  Example.idle (Example.mkCommand Types.AZIMUTH_AXIS 524288 0 false) = false /\
  Example.idle (Example.mkCommand Types.AZIMUTH_AXIS 0 (-100000) false) = false /\
  Core.normalise 20000 (Core.mkAxisSetpoint true Types.OP_MODE_NOT_SET 0 0)
                 (Example.mkCommand Types.AZIMUTH_AXIS 524288 0 false)
    = Core.mkAxisSetpoint false Types.OP_MODE_POINT 524288 20000 /\
  Core.target_velocity
    (Core.normalise 20000 (Core.mkAxisSetpoint true Types.OP_MODE_NOT_SET 7 0)
                    (Example.mkCommand Types.AZIMUTH_AXIS 0 (-100000) false))
    = -100000.
Proof.
  split; [reflexivity|]. split; [reflexivity|]. split; [reflexivity|].
  refine (proj1 (proj2 (proj2
    (proj2 (run_command_selects_point_or_scan 20000
              (Core.mkAxisSetpoint true Types.OP_MODE_NOT_SET 7 0)
              (Example.mkCommand Types.AZIMUTH_AXIS 0 (-100000) false)
              eq_refl) _)))).
  cbn. discriminate.
Defined.

(** ** Encoder pulses and degrees *)

Section Conversions.
Import Types Core.
Open Scope Q_scope.

Lemma pulses_per_degree_zero_iff (ppr : Z) :
  pulses_per_degree ppr == 0 <-> ppr = 0%Z.
Proof.
  unfold pulses_per_degree, Qeq, Qdiv, Qmult, Qinv, inject_Z; simpl. lia.
Qed.

Lemma checked_div_defined (x y : Q) :
  ~ y == 0 -> checked_div x y = Some (x / y).
Proof.
  intros H. unfold checked_div.
  destruct (Qeq_bool y 0) eqn:E; [|reflexivity].
  apply Qeq_bool_iff in E. contradiction.
Qed.

Lemma checked_div_by_zero (x y : Q) : y == 0 -> checked_div x y = None.
Proof.
  intros H. unfold checked_div.
  rewrite (proj2 (Qeq_bool_iff y 0) H). reflexivity.
Qed.

Lemma pulses_to_deg_defined_iff (info : AxisInfo) (p : Z) :
  pulses_to_deg info p <> None <-> encoder_pulses_per_rev info <> 0%Z.
Proof.
  unfold pulses_to_deg. split.
  - intros H E. apply H. apply checked_div_by_zero.
    apply pulses_per_degree_zero_iff. exact E.
  - intros H. rewrite checked_div_defined; [discriminate|].
    intros E. apply H. apply pulses_per_degree_zero_iff. exact E.
Qed.

End Conversions.

(** C10: a default-constructed AxisInfo has encoder_pulses_per_rev equal
    to 0, and so has each axis of a default-constructed SystemInfo; then
    pulses_per_degree = encoder_pulses_per_rev / 360 is 0, every division
    by it is a division by zero, and the pulse-to-degree conversion has no
    result for any pulse count.  For an unsigned 32-bit
    encoder_pulses_per_rev the conversion has a result exactly when
    encoder_pulses_per_rev > 0. *)
Theorem default_AxisInfo_divides_by_zero :
  Types.encoder_pulses_per_rev Types.AxisInfo_ctor = 0 /\
  Types.encoder_pulses_per_rev
    (Types.info_axes_0 Types.SystemInfo_ctor) = 0 /\
  Types.encoder_pulses_per_rev
    (Types.info_axes_1 Types.SystemInfo_ctor) = 0 /\
  (Core.pulses_per_degree
     (Types.encoder_pulses_per_rev Types.AxisInfo_ctor) == 0)%Q /\
  (forall x : Q,
      Core.checked_div x
        (Core.pulses_per_degree
           (Types.encoder_pulses_per_rev Types.AxisInfo_ctor)) = None) /\
  (forall p : Z, Core.pulses_to_deg Types.AxisInfo_ctor p = None) /\
  (forall (info : Types.AxisInfo) (p : Z),
      is_uint32 (Types.encoder_pulses_per_rev info) ->
      (Core.pulses_to_deg info p <> None <->
       0 < Types.encoder_pulses_per_rev info)).
Proof.
  split; [reflexivity|].
  split; [reflexivity|].
  split; [reflexivity|].
  split; [reflexivity|].
  split; [intros x; apply checked_div_by_zero; reflexivity|].
  split; [intros p; apply checked_div_by_zero; reflexivity|].
  intros info p [Hlo _].
  rewrite pulses_to_deg_defined_iff. lia.
Qed.

(** * Further properties of the front end *)

(** ** The tokenizer *)

Section Tokenizer.
Import Types Example.

Lemma forallb_rev_eq {A : Type} (f : A -> bool) (l : list A) :
  forallb f (rev l) = forallb f l.
Proof.
  induction l as [|a l IH]; simpl; [reflexivity|].
  rewrite forallb_app, IH. simpl. rewrite andb_true_r. apply andb_comm.
Qed.

Lemma blank_free_of_list (l : list ascii) :
  blank_free (string_of_list_ascii l) =
  forallb (fun c => negb (Ascii.eqb c " ")) l.
Proof.
  induction l as [|a l IH]; simpl; [reflexivity | rewrite IH; reflexivity].
Qed.

Lemma flush_tokens (cur : list ascii) :
  forallb (fun c => negb (Ascii.eqb c " ")) cur = true ->
  forallb is_token (flush cur) = true.
Proof.
  intros H. destruct cur as [|c cur]; [reflexivity|].
  remember (c :: cur) as l eqn:El.
  assert (Hflush : flush l = [string_of_list_ascii (rev l)])
    by (rewrite El; reflexivity).
  rewrite Hflush. cbn [forallb]. rewrite andb_true_r.
  unfold is_token. rewrite blank_free_of_list, forallb_rev_eq, H.
  rewrite andb_true_r.
  destruct (rev l) eqn:E.
  - apply (f_equal (@List.length ascii)) in E.
    rewrite length_rev, El in E. discriminate.
  - reflexivity.
Qed.

Lemma tokens_from_tokens (s : string) (cur : list ascii) :
  forallb (fun c => negb (Ascii.eqb c " ")) cur = true ->
  forallb is_token (tokens_from s cur) = true.
Proof.
  revert cur. induction s as [|c r IH]; intros cur H; simpl.
  - apply flush_tokens. exact H.
  - destruct (Ascii.eqb c " ") eqn:E.
    + rewrite forallb_app. rewrite (flush_tokens cur H). apply IH.
      reflexivity.
    + apply IH. simpl. rewrite E. exact H.
Qed.

Lemma tokens_from_app_blank (s1 s2 : string) (cur : list ascii) :
  tokens_from (s1 ++ String " " s2) cur =
  (tokens_from s1 cur ++ tokens_from s2 [])%list.
Proof.
  revert cur. induction s1 as [|c r IH]; intros cur; simpl.
  - reflexivity.
  - destruct (Ascii.eqb c " ").
    + rewrite IH. rewrite app_assoc. reflexivity.
    + apply IH.
Qed.

Lemma tokens_from_blank_free (s : string) (cur : list ascii) :
  blank_free s = true ->
  tokens_from s cur = flush (rev (list_ascii_of_string s) ++ cur).
Proof.
  revert cur. induction s as [|c r IH]; intros cur H; simpl in *.
  - reflexivity.
  - apply andb_true_iff in H. destruct H as [Hc Hr].
    apply negb_true_iff in Hc. rewrite Hc.
    rewrite (IH (c :: cur) Hr). rewrite <- app_assoc. reflexivity.
Qed.

Lemma tokenize_token (t : string) : is_token t = true -> tokenize t = [t].
Proof.
  unfold is_token, tokenize. intros H.
  apply andb_true_iff in H. destruct H as [Hn Hb].
  rewrite (tokens_from_blank_free t [] Hb). rewrite app_nil_r.
  destruct t as [|c r]; [discriminate|].
  unfold flush.
  destruct (rev (list_ascii_of_string (String c r))) eqn:E.
  - apply (f_equal (@List.length ascii)) in E. rewrite length_rev in E.
    discriminate.
  - rewrite <- E. rewrite rev_involutive.
    rewrite string_of_list_ascii_of_string. reflexivity.
Qed.

Lemma tokens_from_nonempty (s : string) (cur : list ascii) :
  cur <> [] -> tokens_from s cur <> [].
Proof.
  revert cur. induction s as [|c r IH]; intros cur H; simpl.
  - destruct cur; [contradiction | discriminate].
  - destruct (Ascii.eqb c " ").
    + destruct cur; [contradiction | discriminate].
    + apply IH. discriminate.
Qed.

(** A line has no token exactly when it consists of blanks. *)
Lemma tokenize_nil_iff (s : string) : tokenize s = [] <-> all_blank s = true.
Proof.
  unfold tokenize. induction s as [|c r IH]; simpl.
  - tauto.
  - destruct (Ascii.eqb c " "); simpl.
    + exact IH.
    + split; [|discriminate].
      intros H. exfalso. revert H. apply tokens_from_nonempty. discriminate.
Qed.

End Tokenizer.

(** X8: every token the tokenizer yields is non-empty and contains no
    blank, whatever the line. *)
Theorem tokenize_yields_tokens :
  forall s : string,
    forallb Example.is_token (Example.tokenize s) = true.
Proof.
  intros s. unfold Example.tokenize. apply tokens_from_tokens. reflexivity.
Qed.

(** X9: a blank separates: the tokens of [s1 ++ " " ++ s2] are the tokens
    of [s1] followed by the tokens of [s2], so leading, trailing and
    repeated blanks change nothing. *)
Theorem tokenize_splits_at_blank :
  forall s1 s2 : string,
    Example.tokenize (s1 ++ String " " s2) =
    (Example.tokenize s1 ++ Example.tokenize s2)%list.
Proof.
  intros s1 s2. unfold Example.tokenize. apply tokens_from_app_blank.
Qed.

(** X10: joining tokens (non-empty, blank-free strings) with single
    blanks and tokenizing the line gives the tokens back. *)
Theorem tokenize_concat_round_trip :
  forall toks : list string,
    forallb Example.is_token toks = true ->
    Example.tokenize (String.concat " " toks) = toks.
Proof.
  induction toks as [|t rest IH]; intros H.
  - reflexivity.
  - simpl in H. apply andb_true_iff in H. destruct H as [Ht Hr].
    destruct rest as [|t' rest'].
    + simpl. apply tokenize_token. exact Ht.
    + change (String.concat " " (t :: t' :: rest'))
        with (t ++ String " " (String.concat " " (t' :: rest')))%string.
      unfold Example.tokenize. rewrite tokens_from_app_blank.
      fold (Example.tokenize t).
      fold (Example.tokenize (String.concat " " (t' :: rest'))).
      rewrite (tokenize_token t Ht). rewrite (IH Hr). reflexivity.
Qed.

Lemma tokenize_concat_round_trip_witness :
  forallb Example.is_token ["e"; "v"; "-100000"]%string = true /\
  Example.tokenize (String.concat " " ["e"; "v"; "-100000"]%string)
    = ["e"; "v"; "-100000"]%string.
Proof.
  split; [reflexivity|].
  exact (tokenize_concat_round_trip ["e"; "v"; "-100000"]%string eq_refl).
Defined.

(** ** Reading numbers *)

Section Atoi.
Import Types Example.

Lemma atoi_int32 (s : string) (v : Z) : atoi s = Some v -> is_int32 v.
Proof.
  unfold atoi.
  match goal with |- context [is_int32b ?x] => generalize x end.
  intros x. destruct (is_int32b x) eqn:E; [|discriminate].
  intros H. inversion H; subst. unfold is_int32b in E.
  apply andb_true_iff in E. destruct E as [A B].
  unfold is_int32. split; [apply Z.leb_le, A | apply Z.leb_le, B].
Qed.

(** Without blanks and sign in front, [atoi] is the value of the leading
    digits, if it is an [int]. *)
Lemma atoi_unsigned (c : ascii) (r : string) :
  is_space c = false -> c <> "-"%char -> c <> "+"%char ->
  atoi (String c r) = in_int32 (digits_value 0 (String c r)).
Proof.
  intros Hs Hm Hp.
  destruct c as [[] [] [] [] [] [] [] []];
    try discriminate Hs; try (exfalso; apply Hm; reflexivity);
    try (exfalso; apply Hp; reflexivity); reflexivity.
Qed.

Lemma atoi_no_digits (c : ascii) (r : string) :
  is_space c = false -> c <> "-"%char -> c <> "+"%char ->
  digit_of c = None ->
  atoi (String c r) = Some 0.
Proof.
  intros Hs Hm Hp Hd. rewrite (atoi_unsigned c r Hs Hm Hp).
  simpl. rewrite Hd. reflexivity.
Qed.

Lemma digit_not_space_sign (c : ascii) (d : Z) :
  digit_of c = Some d ->
  is_space c = false /\ c <> "-"%char /\ c <> "+"%char.
Proof.
  unfold digit_of.
  destruct c as [[] [] [] [] [] [] [] []]; cbn; intros H;
    try discriminate H; repeat split; discriminate.
Qed.

Lemma digits_value_stops (s : string) (c : ascii) (r : string) (acc : Z) :
  all_digits s = true -> digit_of c = None ->
  digits_value acc (s ++ String c r) = digits_value acc s.
Proof.
  revert acc. induction s as [|x s IH]; intros acc Hs Hc; simpl.
  - rewrite Hc. reflexivity.
  - simpl in Hs. destruct (digit_of x); [|discriminate].
    apply IH; assumption.
Qed.

End Atoi.

(** X11: [atoi] reads the leading digits and ignores the rest: for a
    non-empty string of digits [s] and a character [c] that is no digit,
    [atoi (s ++ c :: r)] is [atoi s]. *)
Theorem atoi_stops_at_first_non_digit :
  forall (s : string) (c : ascii) (r : string),
    s <> EmptyString ->
    Example.all_digits s = true ->
    Example.digit_of c = None ->
    Example.atoi (s ++ String c r) = Example.atoi s.
Proof.
  intros s c r Hne Hs Hc.
  destruct s as [|x s']; [contradiction|].
  assert (Hx : exists d, Example.digit_of x = Some d).
  { simpl in Hs. destruct (Example.digit_of x) as [d|]; [|discriminate].
    exists d. reflexivity. }
  destruct Hx as [d Hd].
  destruct (digit_not_space_sign x d Hd) as (A & B & C).
  change ((String x s' ++ String c r)%string)
    with (String x (s' ++ String c r)).
  rewrite (atoi_unsigned x _ A B C), (atoi_unsigned x _ A B C).
  change (String x (s' ++ String c r))
    with ((String x s' ++ String c r)%string).
  rewrite (digits_value_stops (String x s') c r 0 Hs Hc). reflexivity.
Qed.

Lemma atoi_stops_at_first_non_digit_witness :
  "12"%string <> EmptyString /\
  Example.atoi "12abc" = Example.atoi "12" /\
  Example.atoi "12" = Some 12.
Proof.
  split; [discriminate|].
  split; [|reflexivity].
  refine (atoi_stops_at_first_non_digit "12" "a" "bc" _ eq_refl eq_refl).
  discriminate.
Defined.

(** ** The command loop *)

Section CommandLoop.
Import Types Example.

Lemma parse_axis_args_shapes (a : Axis) (cmd_vec : list string)
      (cmd : Command) :
  parse_axis_args a cmd_vec Command_ctor = Some (true, cmd) ->
  cmd = mkCommand a 0 0 true \/
  (exists p, is_int32 p /\ cmd = mkCommand a p 0 false) \/
  (exists v, is_int32 v /\ cmd = mkCommand a 0 v false).
Proof.
  unfold parse_axis_args.
  destruct cmd_vec as [|c0 [|c1 rest]]; try discriminate.
  destruct (String.eqb c1 "v").
  { destruct rest as [|c2 rest']; [discriminate|].
    destruct (atoi c2) as [v|] eqn:E; [|discriminate].
    intros H. inversion H; subst. right. right. exists v.
    split; [exact (atoi_int32 _ _ E) | reflexivity]. }
  destruct (String.eqb c1 "p").
  { destruct rest as [|c2 rest']; [discriminate|].
    destruct (atoi c2) as [p|] eqn:E; [|discriminate].
    intros H. inversion H; subst. right. left. exists p.
    split; [exact (atoi_int32 _ _ E) | reflexivity]. }
  destruct (String.eqb c1 "i"); intros H; inversion H; subst.
  - left. reflexivity.
  - right. left. exists 0.
    split; [unfold is_int32, int32_min, int32_max; lia | reflexivity].
Qed.

(** A line of two tokens or more is none of the words the loop handles
    itself. *)
Lemma two_tokens_not_reserved (s c0 c1 : string) (rest : list string) :
  tokenize s = c0 :: c1 :: rest ->
  String.eqb s "q" = false /\ String.eqb s "h" = false /\
  String.eqb s "help" = false /\ String.eqb s "s" = false /\
  String.eqb s "i" = false /\ String.eqb s "" = false.
Proof.
  intros Ht.
  repeat split; apply String.eqb_neq; intros ->; discriminate Ht.
Qed.

Lemma main_step_parses (s : string) :
  String.eqb s "q" = false -> String.eqb s "h" = false ->
  String.eqb s "help" = false -> String.eqb s "s" = false ->
  String.eqb s "i" = false -> String.eqb s "" = false ->
  main_step s =
  match parse_args s Command_ctor with
  | None => None
  | Some (false, _) => Some Skip
  | Some (true, cmd) => Some (Call (dispatch cmd))
  end.
Proof.
  intros A B C D E F. unfold main_step. rewrite A, B, C, D, E, F.
  reflexivity.
Qed.

Lemma all_blank_not_reserved (s : string) :
  s <> EmptyString -> all_blank s = true ->
  String.eqb s "q" = false /\ String.eqb s "h" = false /\
  String.eqb s "help" = false /\ String.eqb s "s" = false /\
  String.eqb s "i" = false /\ String.eqb s "" = false.
Proof.
  intros Hne H. destruct s as [|c r]; [contradiction|].
  simpl in H. apply andb_true_iff in H. destruct H as [Hc _].
  apply Ascii.eqb_eq in Hc. subst c. repeat split; reflexivity.
Qed.

End CommandLoop.

(** X1: every call the command loop issues is SetModeIdle(a),
    SetModeRun(a, p, 0) or SetModeRun(a, 0, v) with a the azimuth or the
    elevation axis and p, v within [int32_t]: a line never sets a position
    and a velocity together. *)
Theorem issued_calls_shape :
  forall (s : string) (c : Example.ApiCall),
    Example.main_step s = Some (Example.Call c) ->
    exists a : Types.Axis,
      (a = Types.AZIMUTH_AXIS \/ a = Types.ELEVATION_AXIS) /\
      (c = Example.SetModeIdle a \/
       (exists p : Z, is_int32 p /\ c = Example.SetModeRun a p 0) \/
       (exists v : Z, is_int32 v /\ c = Example.SetModeRun a 0 v)).
Proof.
  intros s c. unfold Example.main_step.
  destruct (String.eqb s "q"); [discriminate|].
  destruct (String.eqb s "h" || String.eqb s "help"); [discriminate|].
  destruct (String.eqb s "s"); [discriminate|].
  destruct (String.eqb s "i"); [discriminate|].
  destruct (String.eqb s ""); [discriminate|].
  destruct (Example.parse_args s Example.Command_ctor)
    as [[[|] cmd]|] eqn:Hp; try discriminate.
  intros H. inversion H; subst c. clear H.
  unfold Example.parse_args in Hp.
  destruct (Example.tokenize s) as [|c0 rest]; [discriminate|].
  assert (G : forall a,
             Example.parse_axis_args a (c0 :: rest) Example.Command_ctor
               = Some (true, cmd) ->
             Example.dispatch cmd = Example.SetModeIdle a \/
             (exists p, is_int32 p /\
                        Example.dispatch cmd = Example.SetModeRun a p 0) \/
             (exists v, is_int32 v /\
                        Example.dispatch cmd = Example.SetModeRun a 0 v)).
  { intros a Ha.
    destruct (parse_axis_args_shapes a _ _ Ha)
      as [-> | [(p & Hp' & ->) | (v & Hv & ->)]].
    - left. reflexivity.
    - right. left. exists p. split; [exact Hp'|reflexivity].
    - right. right. exists v. split; [exact Hv|reflexivity]. }
  destruct (String.eqb c0 "a").
  { exists Types.AZIMUTH_AXIS. split; [left; reflexivity | apply G; exact Hp]. }
  destruct (String.eqb c0 "e").
  { exists Types.ELEVATION_AXIS.
    split; [right; reflexivity | apply G; exact Hp]. }
  discriminate.
Qed.

Lemma issued_calls_shape_witness :
  Example.main_step "e v -5" =
    Some (Example.Call (Example.SetModeRun Types.ELEVATION_AXIS 0 (-5))) /\
  exists a : Types.Axis,
    (a = Types.AZIMUTH_AXIS \/ a = Types.ELEVATION_AXIS) /\
    (Example.SetModeRun Types.ELEVATION_AXIS 0 (-5) = Example.SetModeIdle a \/
     (exists p : Z, is_int32 p /\
        Example.SetModeRun Types.ELEVATION_AXIS 0 (-5)
          = Example.SetModeRun a p 0) \/
     (exists v : Z, is_int32 v /\
        Example.SetModeRun Types.ELEVATION_AXIS 0 (-5)
          = Example.SetModeRun a 0 v)).
Proof.
  split; [reflexivity|].
  exact (issued_calls_shape "e v -5" _ eq_refl).
Defined.

(** X2: a non-empty line of blanks only passes the test for the empty
    line and reaches [parse_args], which reads [cmd_vec[0]] of an empty
    vector: the behaviour of the loop is undefined on it. *)
Theorem blank_line_undefined :
  forall s : string,
    s <> EmptyString ->
    Example.all_blank s = true ->
    Example.tokenize s = [] /\
    Example.parse_args s Example.Command_ctor = None /\
    Example.main_step s = None.
Proof.
  intros s Hne H.
  assert (T : Example.tokenize s = []) by (apply tokenize_nil_iff; exact H).
  assert (P : Example.parse_args s Example.Command_ctor = None).
  { unfold Example.parse_args. rewrite T. reflexivity. }
  split; [exact T|]. split; [exact P|].
  destruct (all_blank_not_reserved s Hne H) as (A & B & C & D & E & F).
  rewrite (main_step_parses s A B C D E F). rewrite P. reflexivity.
Qed.

Lemma blank_line_undefined_witness :
  "  "%string <> EmptyString /\ Example.main_step "  " = None.
Proof.
  split; [discriminate|].
  refine (proj2 (proj2 (blank_line_undefined "  " _ eq_refl))).
  discriminate.
Defined.

(** X3: the loop quits on the line "q" and on no other line, prints the
    help on "h" and "help" only, the status on "s" only and the system
    info on "i" only: the words are compared with the whole line, so a
    line such as " q" is not one of them. *)
Theorem reserved_lines_exact :
  forall s : string,
    (Example.main_step s = Some Example.Quit <-> s = "q"%string) /\
    (Example.main_step s = Some Example.PrintHelp <->
       s = "h"%string \/ s = "help"%string) /\
    (Example.main_step s = Some Example.PrintStatus <-> s = "s"%string) /\
    (Example.main_step s = Some Example.PrintInfo <-> s = "i"%string).
Proof.
  intros s. unfold Example.main_step.
  destruct (String.eqb_spec s "q") as [->|Nq].
  { repeat split; intros H; try reflexivity; try discriminate;
      try (destruct H; discriminate). }
  destruct (String.eqb_spec s "h") as [->|Nh].
  { repeat split; intros H; try reflexivity; try discriminate;
      try (left; reflexivity). }
  destruct (String.eqb_spec s "help") as [->|Nhelp].
  { repeat split; intros H; try reflexivity; try discriminate;
      try (right; reflexivity). }
  simpl.
  destruct (String.eqb_spec s "s") as [->|Ns].
  { repeat split; intros H; try reflexivity; try discriminate;
      try (destruct H; discriminate). }
  destruct (String.eqb_spec s "i") as [->|Ni].
  { repeat split; intros H; try reflexivity; try discriminate;
      try (destruct H; discriminate). }
  destruct (String.eqb_spec s "") as [->|Ne].
  { repeat split; intros H; try reflexivity; try discriminate;
      try (destruct H; discriminate). }
  destruct (Example.parse_args s Example.Command_ctor) as [[[|] cmd]|];
    repeat split; intros H; try discriminate; try contradiction;
    try (destruct H; contradiction).
Qed.

(** X4: [parse_args] reads at most the first three tokens of a line: two
    lines that agree on them are parsed alike, whatever follows. *)
Theorem parse_args_reads_three_tokens :
  forall (s s' : string) (result : Example.Command),
    firstn 3 (Example.tokenize s) = firstn 3 (Example.tokenize s') ->
    Example.parse_args s result = Example.parse_args s' result.
Proof.
  intros s s' result. unfold Example.parse_args.
  destruct (Example.tokenize s) as [|a [|b [|c l]]];
    destruct (Example.tokenize s') as [|a' [|b' [|c' l']]];
    simpl; intros H; try discriminate; inversion H; subst; reflexivity.
Qed.

Lemma parse_args_reads_three_tokens_witness :
  firstn 3 (Example.tokenize "a p 5 and more") =
    firstn 3 (Example.tokenize "a p 5") /\
  Example.parse_args "a p 5 and more" Example.Command_ctor =
    Example.parse_args "a p 5" Example.Command_ctor.
Proof.
  split; [reflexivity|].
  exact (parse_args_reads_three_tokens "a p 5 and more" "a p 5"
           Example.Command_ctor eq_refl).
Defined.

(** X5: a line for an axis ("a" or "e") whose second token is none of
    "v", "p" and "i" is not rejected: the loop issues SetModeRun(axis, 0,
    0) for it. *)
Theorem unknown_subcommand_runs_to_zero :
  forall (s c0 c1 : string) (rest : list string),
    Example.tokenize s = c0 :: c1 :: rest ->
    c0 = "a"%string \/ c0 = "e"%string ->
    c1 <> "v"%string -> c1 <> "p"%string -> c1 <> "i"%string ->
    Example.main_step s =
    Some (Example.Call
            (Example.SetModeRun
               (if String.eqb c0 "a" then Types.AZIMUTH_AXIS
                else Types.ELEVATION_AXIS) 0 0)).
Proof.
  intros s c0 c1 rest Ht Hc0 Hv Hp Hi.
  destruct (two_tokens_not_reserved s c0 c1 rest Ht)
    as (A & B & C & D & E & F).
  rewrite (main_step_parses s A B C D E F).
  unfold Example.parse_args. rewrite Ht.
  apply String.eqb_neq in Hv, Hp, Hi.
  destruct Hc0 as [-> | ->]; simpl; rewrite Hv, Hp, Hi; reflexivity.
Qed.

Lemma unknown_subcommand_runs_to_zero_witness :
  Example.tokenize "e stop" = ["e"; "stop"]%string /\
  Example.main_step "e stop" =
    Some (Example.Call (Example.SetModeRun Types.ELEVATION_AXIS 0 0)).
Proof.
  split; [reflexivity|].
  refine (unknown_subcommand_runs_to_zero "e stop" "e" "stop" []
            eq_refl (or_intror eq_refl) _ _ _); discriminate.
Defined.

(** X6: the number of a "v" or "p" command is not checked: a third token
    that starts with a character that is no blank, sign or digit reads as
    0, and the loop issues SetModeRun(axis, 0, 0). *)
Theorem non_numeric_argument_reads_zero :
  forall (s c0 c1 : string) (c : ascii) (r : string) (rest : list string),
    Example.tokenize s = c0 :: c1 :: String c r :: rest ->
    c0 = "a"%string \/ c0 = "e"%string ->
    c1 = "v"%string \/ c1 = "p"%string ->
    Example.is_space c = false ->
    c <> "-"%char -> c <> "+"%char ->
    Example.digit_of c = None ->
    Example.atoi (String c r) = Some 0 /\
    Example.main_step s =
    Some (Example.Call
            (Example.SetModeRun
               (if String.eqb c0 "a" then Types.AZIMUTH_AXIS
                else Types.ELEVATION_AXIS) 0 0)).
Proof.
  intros s c0 c1 c r rest Ht Hc0 Hc1 Hs Hm Hp Hd.
  pose proof (atoi_no_digits c r Hs Hm Hp Hd) as Ha.
  split; [exact Ha|].
  destruct (two_tokens_not_reserved s c0 c1 _ Ht)
    as (A & B & C & D & E & F).
  rewrite (main_step_parses s A B C D E F).
  unfold Example.parse_args. rewrite Ht.
  destruct Hc0 as [-> | ->]; destruct Hc1 as [-> | ->];
    simpl; rewrite Ha; reflexivity.
Qed.

Lemma non_numeric_argument_reads_zero_witness :
  Example.tokenize "a p north" = ["a"; "p"; "north"]%string /\
  Example.main_step "a p north" =
    Some (Example.Call (Example.SetModeRun Types.AZIMUTH_AXIS 0 0)).
Proof.
  split; [reflexivity|].
  refine (proj2 (non_numeric_argument_reads_zero "a p north" "a" "p"
                   "n" "orth" [] eq_refl (or_introl eq_refl)
                   (or_intror eq_refl) eq_refl _ _ eq_refl));
    discriminate.
Defined.

(** X7: [parse_args] rejects a line (returns false) exactly when its
    first token is neither "a" nor "e", or the line has that token only,
    or its second token is "v" or "p" with no number after it. *)
Theorem parse_args_rejects_iff :
  forall (s : string) (result : Example.Command),
    (exists r : Example.Command,
        Example.parse_args s result = Some (false, r)) <->
    (exists (c0 : string) (rest : list string),
        Example.tokenize s = c0 :: rest /\
        ((c0 <> "a"%string /\ c0 <> "e"%string) \/
         rest = [] \/ rest = ["v"%string] \/ rest = ["p"%string])).
Proof.
  intros s result. unfold Example.parse_args.
  destruct (Example.tokenize s) as [|c0 rest].
  { split; [intros [r H]; discriminate | intros (c & l & H & _); discriminate]. }
  assert (K : forall a,
             (exists r, Example.parse_axis_args a (c0 :: rest) result
                        = Some (false, r)) <->
             (rest = [] \/ rest = ["v"%string] \/ rest = ["p"%string])).
  { intros a. unfold Example.parse_axis_args.
    destruct rest as [|c1 rest'].
    { split; [intros _; left; reflexivity | intros _; eexists; reflexivity]. }
    destruct (String.eqb_spec c1 "v") as [->|Nv].
    { destruct rest' as [|c2 rest''].
      - split; [intros _; right; left; reflexivity
               | intros _; eexists; reflexivity].
      - split.
        + intros [r H]. destruct (Example.atoi c2); discriminate.
        + intros [H | [H | H]]; discriminate. }
    destruct (String.eqb_spec c1 "p") as [->|Np].
    { destruct rest' as [|c2 rest''].
      - split; [intros _; right; right; reflexivity
               | intros _; eexists; reflexivity].
      - split.
        + intros [r H]. destruct (Example.atoi c2); discriminate.
        + intros [H | [H | H]]; discriminate. }
    split.
    - intros [r H]. destruct (String.eqb c1 "i"); discriminate.
    - intros [H | [H | H]]; inversion H; subst; contradiction. }
  destruct (String.eqb_spec c0 "a") as [->|Na].
  { rewrite K. split.
    - intros H. exists "a"%string, rest. split; [reflexivity|]. right. exact H.
    - intros (c & l & E & [[N _] | H]); inversion E; subst;
        [contradiction | exact H]. }
  destruct (String.eqb_spec c0 "e") as [->|Ne].
  { rewrite K. split.
    - intros H. exists "e"%string, rest. split; [reflexivity|]. right. exact H.
    - intros (c & l & E & [[_ N] | H]); inversion E; subst;
        [contradiction | exact H]. }
  split.
  - intros _. exists c0, rest. split; [reflexivity|]. left. split; assumption.
  - intros _. eexists. reflexivity.
Qed.

(** ** Printing the status *)

Section PrintingFacts.
Import Types Example.
Variable cur_temperature : AxisStatus -> Z.

Lemma emit_all_render (items : list Item) (os : ostream) :
  emit_all os items =
  {| base := final_base (base os) items;
     written := written os ++ render (base os) items |}.
Proof.
  unfold emit_all. revert os.
  induction items as [|i rest IH]; intros os; simpl.
  - rewrite app_nil_r. destruct os; reflexivity.
  - rewrite IH. destruct i; simpl; rewrite <- ?app_assoc; reflexivity.
Qed.

(** The axis loop indexes the two cells of the array and nothing else. *)
Lemma for_axes_loop (row : Z -> AxisStatus -> list Item)
      (status : SystemStatus) (os : ostream) :
  for_axes row status axis_loop os =
  Some (emit_all (emit_all os (row 0 (axes_0 status)))
                 (row 1 (axes_1 status))).
Proof. reflexivity. Qed.

Lemma print_status_written (status : SystemStatus) (hp : bool)
      (os : ostream) :
  print_status cur_temperature status hp os =
  Some (true,
        {| base := Dec;
           written := written os ++ (if hp then [] else header_out)
                        ++ sample_out cur_temperature (base os) status |}).
Proof.
  unfold print_status. rewrite for_axes_loop.
  rewrite !emit_all_render.
  destruct hp.
  - cbn [emit base written final_base print_status_axis].
    unfold sample_out. cbn [app]. rewrite <- !app_assoc. reflexivity.
  - cbn [emit base written].
    replace (render (base os) (map IText status_header ++ [IEndl]))
      with header_out by reflexivity.
    replace (final_base (base os) (map IText status_header ++ [IEndl]))
      with (base os) by reflexivity.
    cbn [final_base print_status_axis].
    unfold sample_out. rewrite <- !app_assoc. reflexivity.
Qed.


Lemma numbers_app (a b : list Out) :
  numbers (a ++ b) = (numbers a ++ numbers b)%list.
Proof.
  induction a as [|x a IH]; simpl; [reflexivity|].
  destruct x; simpl; rewrite IH; reflexivity.
Qed.

Lemma count_app (p : Out -> bool) (a b : list Out) :
  count p (a ++ b) = (count p a + count p b)%nat.
Proof. unfold count. rewrite filter_app, length_app. reflexivity. Qed.

End PrintingFacts.

(** X15: in every sample [print_status] writes, the time stamp is
    followed at once by the index of the first axis, and the temperature
    of the first axis at once by the index of the second: no separator is
    written between them.  The call never indexes outside the array, and
    it leaves the stream in decimal. *)
Theorem sample_fields_run_together :
  forall (cur_temperature : Types.AxisStatus -> Z)
         (status : Types.SystemStatus) (header_printed : bool)
         (os : Example.ostream),
  exists (os' : Example.ostream) (pre mid post : list Example.Out),
    Example.print_status cur_temperature status header_printed os
      = Some (true, os') /\
    Example.base os' = Example.Dec /\
    Example.written os' =
      (Example.written os ++ pre
         ++ [Example.LocalTime; Example.Num (Example.base os) 0]
         ++ mid
         ++ [Example.Num Example.Dec
               (cur_temperature (Types.axes_0 status));
             Example.Num Example.Dec 1]
         ++ post)%list.
Proof.
  intros ct status hp os.
  eexists.
  exists (if hp then [] else Example.header_out).
  exists (firstn 24 (skipn 2 (Example.sample_out ct (Example.base os) status))).
  exists (skipn 28 (Example.sample_out ct (Example.base os) status)).
  split; [apply print_status_written|].
  split; reflexivity.
Qed.


(** ** The log thread *)

Section LogThread.
Import Types Example.
Variable cur_temperature : AxisStatus -> Z.
Variable cell : nat -> SystemStatus.

Lemma sample_counts (b : Base) (status : SystemStatus) :
  count is_endl (sample_out cur_temperature b status) = 0%nat /\
  count is_time (sample_out cur_temperature b status) = 1%nat /\
  List.length (numbers (sample_out cur_temperature b status)) = 26%nat /\
  count is_tab (sample_out cur_temperature b status) = 24%nat.
Proof. repeat split. Qed.

Lemma header_counts :
  count is_endl header_out = 1%nat /\
  count is_time header_out = 0%nat /\
  List.length (numbers header_out) = 0%nat /\
  count is_tab header_out = 0%nat.
Proof. repeat split. Qed.

Lemma step_defined (file_good : bool) (w : World) (e : Event) :
  exists w', step cur_temperature cell file_good w e = Some w'.
Proof.
  destruct e; unfold step.
  - destruct (pc w); try (eexists; reflexivity).
    destruct (stop_ (bound w)); [eexists; reflexivity|].
    rewrite print_status_written. eexists; reflexivity.
  - eexists; reflexivity.
Qed.

Lemma step_keeps_log_shape (file_good : bool) (w w' : World) (e : Event) :
  log_shape w ->
  step cur_temperature cell file_good w e = Some w' ->
  log_shape w'.
Proof.
  intros Inv. destruct e; unfold step.
  - destruct (pc w).
    + intros H; inversion H; subst; exact Inv.
    + destruct (stop_ (bound w)).
      * intros H; inversion H; subst; exact Inv.
      * rewrite print_status_written.
        intros H; inversion H; subst; clear H.
        destruct Inv as (Hh & He & Ht & Hn & Hb & Hs).
        destruct (sample_counts (base (ofs w)) (cell (loads w)))
          as (Se & St & Sn & Sb).
        destruct header_counts as (Ge & Gt & Gn & Gb).
        unfold log_shape. cbn [header_printed loads ofs written bound slept_us].
        rewrite !count_app, !numbers_app, !length_app.
        rewrite Se, St, Sn, Sb, He, Ht, Hn, Hb, Hs, Hh.
        destruct (loads w) as [|n]; cbn [Nat.eqb negb];
          rewrite ?Ge, ?Gt, ?Gn, ?Gb;
          repeat split; try reflexivity; try (simpl; lia).
    + intros H; inversion H; subst; exact Inv.
  - intros H; inversion H; subst; exact Inv.
Qed.

Lemma run_keeps_log_shape (file_good : bool) (events : list Event)
      (w : World) :
  log_shape w ->
  exists w', run cur_temperature cell file_good w events = Some w' /\
             log_shape w'.
Proof.
  revert w. induction events as [|e rest IH]; intros w Inv; cbn [run].
  - exists w. split; [reflexivity | exact Inv].
  - destruct (step_defined file_good w e) as [w1 H1]. rewrite H1.
    apply IH. exact (step_keeps_log_shape file_good w w1 e Inv H1).
Qed.

Lemma start_log_shape (path : string) (rate : Z) :
  log_shape (start path rate).
Proof. repeat split. Qed.

Lemma run_never_returns (events : list Event) (w : World) :
  stop_ (bound w) = false ->
  String.eqb (outfilepath_ (bound w)) "" = false ->
  pc w <> Returned ->
  exists w',
    run cur_temperature cell true w events = Some w' /\
    pc w' <> Returned /\
    bound w' = bound w /\
    (stop_ (statreader w') = true <->
     stop_ (statreader w) = true \/ In MainSetsStop events) /\
    loads w' =
      (loads w + samples_after (pc w) (count_events ThreadStep events))%nat.
Proof.
  revert w. induction events as [|e rest IH]; intros w Hs Hp Hpc.
  - exists w. cbn [run In]. repeat split; auto.
    + intros [H|[]]; exact H.
    + unfold count_events. simpl. destruct (pc w); simpl; lia.
  - destruct e; cbn [run]; unfold step.
    + destruct (pc w) eqn:Epc.
      * rewrite Hp. cbv beta iota.
        match goal with
        | |- context [run _ _ _ ?w1 rest] =>
            destruct (IH w1) as (w' & R & A & B & C & D);
              [exact Hs | exact Hp | discriminate |]
        end.
        exists w'. rewrite R. cbn [pc bound statreader loads] in *.
        split; [reflexivity|]. split; [exact A|]. split; [exact B|].
        split.
        { rewrite C. cbn [In]. split; [tauto|].
          intros [H|[H|H]]; [tauto|discriminate|tauto]. }
        rewrite D. unfold count_events. simpl. lia.
      * rewrite Hs. rewrite print_status_written. cbv beta iota.
        match goal with
        | |- context [run _ _ _ ?w1 rest] =>
            destruct (IH w1) as (w' & R & A & B & C & D);
              [exact Hs | exact Hp | discriminate |]
        end.
        exists w'. rewrite R. cbn [pc bound statreader loads] in *.
        split; [reflexivity|]. split; [exact A|]. split; [exact B|].
        split.
        { rewrite C. cbn [In]. split; [tauto|].
          intros [H|[H|H]]; [tauto|discriminate|tauto]. }
        rewrite D. unfold count_events. simpl. lia.
      * contradiction.
    + cbv beta iota.
      match goal with
      | |- context [run _ _ _ ?w1 rest] =>
          destruct (IH w1) as (w' & R & A & B & C & D);
            [exact Hs | exact Hp | exact Hpc |]
      end.
      exists w'. rewrite R. cbn [pc bound statreader loads stop_ set_stop] in *.
      split; [reflexivity|]. split; [exact A|]. split; [exact B|].
      split.
      { split; [intros _; right; left; reflexivity|].
        intros _. apply C. left. reflexivity. }
      rewrite D. unfold count_events. simpl. reflexivity.
Qed.

Lemma run_without_log (file_good : bool) (events : list Event) (w : World) :
  String.eqb (outfilepath_ (bound w)) "" || negb file_good = true ->
  pc w <> AtLoop ->
  exists w',
    run cur_temperature cell file_good w events = Some w' /\
    loads w' = loads w /\ ofs w' = ofs w /\
    pc w' <> AtLoop /\
    (In ThreadStep events -> pc w' = Returned) /\
    (pc w = Returned -> pc w' = Returned).
Proof.
  revert w. induction events as [|e rest IH]; intros w Hc Hpc.
  - exists w. cbn [run In]. repeat split; auto. intros [].
  - destruct e; cbn [run]; unfold step.
    + destruct (pc w) eqn:Epc.
      * assert (N : (if String.eqb (outfilepath_ (bound w)) "" then Returned
                     else if file_good then AtLoop else Returned) = Returned).
        { destruct (String.eqb (outfilepath_ (bound w)) ""); [reflexivity|].
          destruct file_good; [discriminate Hc | reflexivity]. }
        rewrite N. cbv beta iota.
        match goal with
        | |- context [run _ _ _ ?w1 rest] =>
            destruct (IH w1) as (w' & R & A & B & C & D & E);
              [exact Hc | discriminate |]
        end.
        exists w'. rewrite R. cbn [pc loads ofs] in *.
        repeat split; auto.
      * contradiction.
      * cbv beta iota.
        destruct (IH w) as (w' & R & A & B & C & D & E);
          [exact Hc | rewrite Epc; discriminate |].
        exists w'. rewrite R. repeat split; auto.
    + cbv beta iota.
      match goal with
      | |- context [run _ _ _ ?w1 rest] =>
          destruct (IH w1) as (w' & R & A & B & C & D & E);
            [exact Hc | exact Hpc |]
      end.
      exists w'. rewrite R. cbn [pc loads ofs] in *.
      repeat split; auto.
      intros [H|H]; [discriminate | auto].
Qed.

End LogThread.

(** X12: with a log file that opens, the log thread never returns,
    whatever [main] does: [main] sets [stop_] of its own [statreader],
    the thread tests the copy it was started on, which stays false.  So the
    [join] after "q" does not come back; meanwhile every thread step after
    the first writes one more sample. *)
Theorem log_thread_never_stops :
  forall (cur_temperature : Types.AxisStatus -> Z)
         (cell : nat -> Types.SystemStatus)
         (outfilepath : string) (lograte_us : Z)
         (events : list Example.Event),
    outfilepath <> EmptyString ->
    exists w : Example.World,
      Example.run cur_temperature cell true
                  (Example.start outfilepath lograte_us) events = Some w /\
      Example.pc w <> Example.Returned /\
      Example.stop_ (Example.bound w) = false /\
      (Example.stop_ (Example.statreader w) = true <->
       In Example.MainSetsStop events) /\
      Example.loads w =
        Nat.pred (Example.count_events Example.ThreadStep events).
Proof.
  intros ct cell path rate events Hne.
  destruct (run_never_returns ct cell events (Example.start path rate))
    as (w & R & A & B & C & D).
  - reflexivity.
  - apply String.eqb_neq. exact Hne.
  - discriminate.
  - exists w. split; [exact R|]. split; [exact A|].
    split; [rewrite B; reflexivity|].
    split.
    + rewrite C. cbn. split; [intros [H|H]; [discriminate|exact H] | auto].
    + rewrite D. reflexivity.
Qed.

Lemma log_thread_never_stops_witness :
  "run.log"%string <> EmptyString /\
  exists w : Example.World,
    Example.run (fun _ => 0)
                (fun _ => Types.mkSystemStatus
                            (Types.mkAxisStatus 0 0 0 0 0 0 0 0 0 0 0 0 0 0
                               Types.AXIS_IDLE 0 0 0 0 0 0
                               Types.OP_MODE_NOT_SET 0
                               Types.PARAMS_MODE_AUTOMATIC)
                            (Types.mkAxisStatus 0 0 0 0 0 0 0 0 0 0 0 0 0 0
                               Types.AXIS_IDLE 0 0 0 0 0 0
                               Types.OP_MODE_NOT_SET 0
                               Types.PARAMS_MODE_AUTOMATIC)
                            Types.SYSTEM_READY 0 0 0)
                true
                (Example.start "run.log" 1000)
                [ Example.ThreadStep; Example.ThreadStep;
                  Example.MainSetsStop; Example.ThreadStep ] = Some w /\
    Example.pc w <> Example.Returned /\
    Example.stop_ (Example.bound w) = false /\
    (Example.stop_ (Example.statreader w) = true <->
     In Example.MainSetsStop
        [ Example.ThreadStep; Example.ThreadStep;
          Example.MainSetsStop; Example.ThreadStep ]) /\
    Example.loads w =
      Nat.pred (Example.count_events Example.ThreadStep
                  [ Example.ThreadStep; Example.ThreadStep;
                    Example.MainSetsStop; Example.ThreadStep ]).
Proof.
  split; [discriminate|].
  refine (log_thread_never_stops _ _ "run.log" 1000 _ _).
  discriminate.
Defined.

(** X13: without a log file name, or when the file does not open, the
    thread returns at its first step: it loads no status and writes
    nothing, whatever happens. *)
Theorem no_log_without_file :
  forall (cur_temperature : Types.AxisStatus -> Z)
         (cell : nat -> Types.SystemStatus) (file_good : bool)
         (outfilepath : string) (lograte_us : Z)
         (events : list Example.Event),
    String.eqb outfilepath "" || negb file_good = true ->
    exists w : Example.World,
      Example.run cur_temperature cell file_good
                  (Example.start outfilepath lograte_us) events = Some w /\
      Example.loads w = 0%nat /\
      Example.written (Example.ofs w) = [] /\
      (In Example.ThreadStep events -> Example.pc w = Example.Returned).
Proof.
  intros ct cell file_good path rate events Hc.
  destruct (run_without_log ct cell file_good events
                            (Example.start path rate))
    as (w & R & A & B & C & D & E).
  - exact Hc.
  - discriminate.
  - exists w. split; [exact R|]. split; [exact A|].
    split; [rewrite B; reflexivity | exact D].
Qed.

Lemma no_log_without_file_witness :
  String.eqb "" "" || negb true = true /\
  exists w : Example.World,
    Example.run (fun _ => 0)
                (fun _ => Types.mkSystemStatus
                            (Types.mkAxisStatus 0 0 0 0 0 0 0 0 0 0 0 0 0 0
                               Types.AXIS_IDLE 0 0 0 0 0 0
                               Types.OP_MODE_NOT_SET 0
                               Types.PARAMS_MODE_AUTOMATIC)
                            (Types.mkAxisStatus 0 0 0 0 0 0 0 0 0 0 0 0 0 0
                               Types.AXIS_IDLE 0 0 0 0 0 0
                               Types.OP_MODE_NOT_SET 0
                               Types.PARAMS_MODE_AUTOMATIC)
                            Types.SYSTEM_READY 0 0 0)
                true (Example.start "" 1000)
                [Example.ThreadStep; Example.ThreadStep] = Some w /\
    Example.loads w = 0%nat /\
    Example.written (Example.ofs w) = [] /\
    (In Example.ThreadStep [Example.ThreadStep; Example.ThreadStep] ->
     Example.pc w = Example.Returned).
Proof.
  split; [reflexivity|].
  exact (no_log_without_file _ _ true "" 1000 _ eq_refl).
Defined.

(** X14: the log the thread writes: after k samples it holds k time
    stamps and 26 k numbers, that is as many values per sample as the
    header has columns (27), but only 24 k tabs between them and one line
    end in all, the one after the header: samples do not end in a line
    end.  After each sample the thread sleeps the configured time. *)
Theorem log_file_shape :
  forall (cur_temperature : Types.AxisStatus -> Z)
         (cell : nat -> Types.SystemStatus) (file_good : bool)
         (outfilepath : string) (lograte_us : Z)
         (events : list Example.Event),
  exists w : Example.World,
    Example.run cur_temperature cell file_good
                (Example.start outfilepath lograte_us) events = Some w /\
    Example.count Example.is_endl (Example.written (Example.ofs w))
      = Nat.min 1 (Example.loads w) /\
    Example.count Example.is_time (Example.written (Example.ofs w))
      = Example.loads w /\
    List.length (Example.numbers (Example.written (Example.ofs w)))
      = (26 * Example.loads w)%nat /\
    (Example.count Example.is_time (Example.written (Example.ofs w))
     + List.length (Example.numbers (Example.written (Example.ofs w)))
     = Example.header_columns * Example.loads w)%nat /\
    Example.count Example.is_tab (Example.written (Example.ofs w))
      = (24 * Example.loads w)%nat /\
    Example.slept_us w = repeat lograte_us (Example.loads w).
Proof.
  intros ct cell file_good path rate events.
  destruct (run_keeps_log_shape ct cell file_good events
              (Example.start path rate) (start_log_shape path rate))
    as (w & R & Hh & He & Ht & Hn & Hb & Hs).
  assert (B : Example.bound w = Example.StatReader_ctor path rate).
  { clear - R. revert R.
    generalize (eq_refl : Example.bound (Example.start path rate)
                          = Example.StatReader_ctor path rate).
    generalize (Example.start path rate) as w0.
    induction events as [|e rest IH]; intros w0 H0; cbn [Example.run].
    - intros H. inversion H; subst. exact H0.
    - destruct (Example.step ct cell file_good w0 e) as [w1|] eqn:S1;
        [|discriminate].
      apply IH.
      destruct e; unfold Example.step in S1.
      + destruct (Example.pc w0).
        * inversion S1; subst; exact H0.
        * destruct (Example.stop_ (Example.bound w0)).
          -- inversion S1; subst; exact H0.
          -- rewrite print_status_written in S1.
             inversion S1; subst; exact H0.
        * inversion S1; subst; exact H0.
      + inversion S1; subst; exact H0. }
  exists w. split; [exact R|]. split; [exact He|]. split; [exact Ht|].
  split; [exact Hn|]. split.
  - rewrite Ht, Hn. change Example.header_columns with 27%nat. lia.
  - split; [exact Hb|]. rewrite Hs, B. reflexivity.
Qed.
